(** * MedAPP backend: patient service, upload service and diagnosis schema

    A shallow embedding of
    - [apps/backend/src/services/patient.service.ts] (module [PatientService]),
    - [apps/backend/src/services/upload.service.ts] (module [UploadService]),
    - [apps/backend/src/config/supabase.ts] ([getSupabase]),
    - the [diagnoses] table of [supabase_schema.sql] (module [Diagnoses]),
    followed by the properties proved about them.

    Conventions.  An [async] function is a function from the state of the
    process to a settled promise and the state it leaves behind.  Strings are
    UTF-8 byte strings.  A [Date] is its number of milliseconds since the
    epoch.  A function that throws and an [async] function whose promise is
    rejected both end in [Throw].  JavaScript's [null] and [undefined] are
    both [None]: no function below tells them apart, since each is only ever
    tested for truthiness. *)

From stdpp Require Import gmap strings list pretty sorting.
From Stdlib Require Import ZArith QArith Ascii Strings.Byte.

Open Scope Z_scope.

(** ** JavaScript values and exceptions *)

Module Js.

(** Truthiness of a boolean and of a string (only [""] is falsy). *)
Definition truthy_bool (b : bool) : bool := b.
Definition truthy_string (s : string) : bool := negb (String.eqb s "").

(** [x || undefined] and [x || null], for [x] possibly absent. *)
Definition or_absent {A} (truthy : A → bool) (x : option A) : option A :=
  match x with
  | Some a => if truthy a then Some a else None
  | None => None
  end.

(** [x || d], for [x] possibly absent and [d] a value. *)
Definition or_else {A} (truthy : A → bool) (x : option A) (d : A) : A :=
  match x with
  | Some a => if truthy a then a else d
  | None => d
  end.

(** [Array.prototype.join] on an array of strings. *)
Fixpoint join (sep : string) (l : list string) : string :=
  match l with
  | [] => ""
  | x :: rest =>
      match rest with
      | [] => x
      | _ :: _ => x +:+ sep +:+ join sep rest
      end
  end.

(** [s.split(c)[0]]: the part of [s] before the first [c]. *)
Fixpoint before (c : ascii) (s : string) : string :=
  match s with
  | EmptyString => EmptyString
  | String a rest => if Ascii.eqb a c then EmptyString else String a (before c rest)
  end.

(** The error object of the database client, [{ message, details, hint, code }]. *)
Record PostgrestError := {
  pg_message : string;
  pg_details : string;
  pg_hint : string;
  pg_code : string
}.

(** The error object of the storage client. *)
Record StorageError := { st_message : string }.

(** What the services throw. *)
Inductive Exn :=
| HttpError (message : string) (statusCode : Z)
| ClientError (e : PostgrestError)
| Error (message : string)
| TypeError (message : string).

(** Modelled from the spec: [createError] of [middleware/error.middleware],
    which is not among the sources.  Section 7 of the specification: a domain
    error is an error "with an attached HTTP status (e.g., not-found → 404)". *)
Definition createError (message : string) (statusCode : Z) : Exn :=
  HttpError message statusCode.

(** The status an error carries, if it carries one. *)
Definition status_of (e : Exn) : option Z :=
  match e with
  | HttpError _ s => Some s
  | _ => None
  end.

(** How a call ends. *)
Inductive Outcome (A : Type) :=
| Return (a : A)
| Throw (e : Exn).
Global Arguments Return {A} a.
Global Arguments Throw {A} e.

(** The two functions of [Date] the services rely on. *)
Class DateApi := {
  toISOString : Z → string;
  Date_parse : string → Z
}.

End Js.

Import Js.

(** ** Application and row shapes ([@shared/types], [types/database.types.ts]) *)

(** Modelled from the spec: the type [Patient] of [@shared/types], which is
    not among the sources.  Section 3 of the specification: "identifier, name,
    free-text history, visit date, an opaque index string, optional
    biopsy-confirmed flag, optional doctor name, creation/update timestamps".
    Both timestamps are set at every place where the service builds a
    patient. *)
Module Patient.
Record t := {
  id : string;
  name : string;
  history : string;
  date : string;
  index : string;
  biopsyConfirmed : option bool;
  doctor : option string;
  createdAt : Z;
  updatedAt : Z
}.
End Patient.

Module PatientRow.
Record t := {
  id : string;
  patient_id : string;
  name : string;
  history : string;
  date : string;
  index : string;
  biopsy_confirmed : option bool;
  doctor : option string;
  created_at : string;
  updated_at : string
}.
End PatientRow.

Module PatientInsert.
Record t := {
  patient_id : string;
  name : string;
  history : string;
  date : string;
  index : string;
  biopsy_confirmed : option bool;
  doctor : option string
}.
End PatientInsert.

Module PatientUpdate.
Record t := {
  patient_id : option string;
  name : option string;
  history : option string;
  date : option string;
  index : option string;
  biopsy_confirmed : option (option bool);
  doctor : option (option string)
}.
End PatientUpdate.

(** Modelled from the spec: the request types of [@shared/types], which are
    not among the sources.  Their members are those that the service reads:
    the name and the optional list [medicalHistory] of a creation, the
    identifier and the optional name and list of an update ("Updating a
    patient preserves fields not included in the update payload"). *)
Module CreatePatientRequest.
Record t := {
  name : string;
  medicalHistory : option (list string)
}.
End CreatePatientRequest.

Module UpdatePatientRequest.
Record t := {
  id : string;
  name : option string;
  medicalHistory : option (list string)
}.
End UpdatePatientRequest.

(** ** Row conversions of [patient.service.ts] *)

Section Conversions.
Context `{DateApi}.

Definition fromDbFormat (row : PatientRow.t) : Patient.t :=
  {| Patient.id := PatientRow.patient_id row;
     Patient.name := PatientRow.name row;
     Patient.history := PatientRow.history row;
     Patient.date := PatientRow.date row;
     Patient.index := PatientRow.index row;
     Patient.biopsyConfirmed := or_absent truthy_bool (PatientRow.biopsy_confirmed row);
     Patient.doctor := or_absent truthy_string (PatientRow.doctor row);
     Patient.createdAt := Date_parse (PatientRow.created_at row);
     Patient.updatedAt := Date_parse (PatientRow.updated_at row) |}.

Definition toDbFormat (patient : Patient.t) : PatientInsert.t :=
  {| PatientInsert.patient_id := Patient.id patient;
     PatientInsert.name := Patient.name patient;
     PatientInsert.history := Patient.history patient;
     PatientInsert.date := Patient.date patient;
     PatientInsert.index := Patient.index patient;
     PatientInsert.biopsy_confirmed := or_absent truthy_bool (Patient.biopsyConfirmed patient);
     PatientInsert.doctor := or_absent truthy_string (Patient.doctor patient) |}.

End Conversions.

(** ** [Map<string, V>]: insertion-ordered, one entry per key *)

Module JsMap.
Section Ops.
Context {V : Type}.

Definition t := list (string * V).

Fixpoint get (k : string) (m : t) : option V :=
  match m with
  | [] => None
  | (k', v) :: rest => if decide (k' = k) then Some v else get k rest
  end.

(** [set] keeps the position of a key that is already present. *)
Fixpoint set (k : string) (v : V) (m : t) : t :=
  match m with
  | [] => [(k, v)]
  | (k', v') :: rest =>
      if decide (k' = k) then (k, v) :: rest else (k', v') :: set k v rest
  end.

Fixpoint remove (k : string) (m : t) : t :=
  match m with
  | [] => []
  | (k', v') :: rest =>
      if decide (k' = k) then remove k rest else (k', v') :: remove k rest
  end.

(** [Map.prototype.delete]: whether the key was there, and the map left. *)
Definition delete (k : string) (m : t) : bool * t :=
  (bool_decide (is_Some (get k m)), remove k m).

Definition values (m : t) : list V := m.*2.
End Ops.
Global Arguments t : clear implicits.
End JsMap.

(** ** The environment and the database client ([config/supabase.ts]) *)

Record Env := {
  NO_DB : option string;
  SUPABASE_URL : option string;
  SUPABASE_ANON_KEY : option string
}.

(** [process.env.NO_DB === 'true'] *)
Definition isNoDB (env : Env) : bool := bool_decide (NO_DB env = Some "true").

(** [!v] for an environment variable. *)
Definition unset (v : option string) : bool :=
  match v with
  | Some s => negb (truthy_string s)
  | None => true
  end.

(** [getSupabase].  The environment of a process does not change, so the
    cached client [_supabase] answers as the first call did; the client itself
    is the interface below, and its state is that of the service it reaches
    (the placeholder service when the credentials are missing in NO_DB mode). *)
Definition getSupabase (env : Env) : Outcome unit :=
  if unset (SUPABASE_URL env) || unset (SUPABASE_ANON_KEY env) then
    if isNoDB env then Return tt
    else Throw (Error "SUPABASE_URL and SUPABASE_ANON_KEY are required. Set NO_DB=true to skip database.")
  else Return tt.

(** The [{ data, error }] object a query resolves to. *)
Record Response (A : Type) := {
  data : option A;
  error : option PostgrestError
}.
Arguments data {A} _.
Arguments error {A} _.

(** The five queries the patient service issues on [from('patients')], each
    from the state of the database to its new state and the response. *)
Class PatientsClient (DB : Type) := {
  (** [.select('*').order('created_at', { ascending: false })] *)
  select_order_created_desc : DB → DB * Response (list PatientRow.t);
  (** [.select('*').eq('patient_id', id).single()] *)
  select_eq_single : string → DB → DB * Response PatientRow.t;
  (** [.insert(row).select('*').single()] *)
  insert_select_single : PatientInsert.t → DB → DB * Response PatientRow.t;
  (** [.update(payload).eq('patient_id', id).select('*').single()] *)
  update_eq_select_single : PatientUpdate.t → string → DB → DB * Response PatientRow.t;
  (** [.delete().eq('patient_id', id).select('*').single()] *)
  delete_eq_select_single : string → DB → DB * Response PatientRow.t
}.

(** ** [PatientService] ([patient.service.ts]) *)

Module PatientService.

(** The module-level [memoryPatients] and the database behind the client. *)
Record State (DB : Type) := {
  memoryPatients : JsMap.t Patient.t;
  database : DB
}.
Arguments memoryPatients {DB} _.
Arguments database {DB} _.

Definition with_memory {DB} (m : JsMap.t Patient.t) (s : State DB) : State DB :=
  {| memoryPatients := m; database := database s |}.

Definition with_database {DB} (db : DB) (s : State DB) : State DB :=
  {| memoryPatients := memoryPatients s; database := db |}.

Definition not_found : Exn := createError "Patient not found" 404.

(** The comparator of [getAllPatients] orders by [createdAt], latest first;
    [Array.prototype.sort] is stable.  A [Date] object is truthy, so the
    fallback [|| new Date()] of the comparator is never taken. *)
Fixpoint insert_latest_first (p : Patient.t) (l : list Patient.t) : list Patient.t :=
  match l with
  | [] => [p]
  | q :: rest =>
      if Patient.createdAt q <=? Patient.createdAt p then p :: q :: rest
      else q :: insert_latest_first p rest
  end.

Definition sort_latest_first (l : list Patient.t) : list Patient.t :=
  foldr insert_latest_first [] l.

Section Service.
Context `{DateApi} {DB : Type} `{PatientsClient DB}.
Variable env : Env.

Definition getAllPatients (s : State DB) : Outcome (list Patient.t) * State DB :=
  if isNoDB env then
    (Return (sort_latest_first (JsMap.values (memoryPatients s))), s)
  else
    match getSupabase env with
    | Throw e => (Throw e, s)
    | Return _ =>
        let '(db, r) := select_order_created_desc (database s) in
        match error r with
        | Some e => (Throw (ClientError e), with_database db s)
        | None => (Return (fromDbFormat <$> default [] (data r)), with_database db s)
        end
    end.

Definition getPatientById (id : string) (s : State DB) : Outcome Patient.t * State DB :=
  if isNoDB env then
    match JsMap.get id (memoryPatients s) with
    | None => (Throw not_found, s)
    | Some patient => (Return patient, s)
    end
  else
    match getSupabase env with
    | Throw e => (Throw e, s)
    | Return _ =>
        let '(db, r) := select_eq_single id (database s) in
        match error r, data r with
        | None, Some row => (Return (fromDbFormat row), with_database db s)
        | _, _ => (Throw not_found, with_database db s)
        end
    end.

(** The object [patient] of [createPatient]: [now] is the value of
    [Date.now()]; [t_date], [t_created] and [t_updated] are the three later
    readings [new Date()]. *)
Definition new_patient (now t_date t_created t_updated : Z)
    (patientData : CreatePatientRequest.t) : Patient.t :=
  {| Patient.id := "patient-" +:+ pretty now;
     Patient.name := CreatePatientRequest.name patientData;
     Patient.history :=
       or_else truthy_string
         (join ", " <$> CreatePatientRequest.medicalHistory patientData) "";
     Patient.date := before "T"%char (toISOString t_date);
     Patient.index := pretty now;
     Patient.biopsyConfirmed := Some false;
     Patient.doctor := Some "Unknown";
     Patient.createdAt := t_created;
     Patient.updatedAt := t_updated |}.

Definition createPatient (now t_date t_created t_updated : Z)
    (patientData : CreatePatientRequest.t) (s : State DB)
    : Outcome Patient.t * State DB :=
  let patient := new_patient now t_date t_created t_updated patientData in
  if isNoDB env then
    (Return patient,
     with_memory (JsMap.set (Patient.id patient) patient (memoryPatients s)) s)
  else
    match getSupabase env with
    | Throw e => (Throw e, s)
    | Return _ =>
        let '(db, r) := insert_select_single (toDbFormat patient) (database s) in
        match error r with
        | Some e => (Throw (ClientError e), with_database db s)
        | None =>
            match data r with
            | Some row => (Return (fromDbFormat row), with_database db s)
            | None =>
                (Throw (TypeError "Cannot read properties of null (reading 'patient_id')"),
                 with_database db s)
            end
        end
    end.

(** The object [updatePayload] of [updatePatient]: an array is truthy, also
    when it is empty; a name is truthy unless it is empty. *)
Definition update_payload (updateData : UpdatePatientRequest.t) : PatientUpdate.t :=
  {| PatientUpdate.patient_id := None;
     PatientUpdate.name :=
       or_absent truthy_string (UpdatePatientRequest.name updateData);
     PatientUpdate.history :=
       join ", " <$> UpdatePatientRequest.medicalHistory updateData;
     PatientUpdate.date := None;
     PatientUpdate.index := None;
     PatientUpdate.biopsy_confirmed := None;
     PatientUpdate.doctor := None |}.

(** [t_updated] is the reading [new Date()] of the in-memory branch. *)
Definition updatePatient (t_updated : Z) (updateData : UpdatePatientRequest.t)
    (s : State DB) : Outcome Patient.t * State DB :=
  let id := UpdatePatientRequest.id updateData in
  if isNoDB env then
    match JsMap.get id (memoryPatients s) with
    | None => (Throw not_found, s)
    | Some existingPatient =>
        let updatedPatient :=
          {| Patient.id := Patient.id existingPatient;
             Patient.name :=
               or_else truthy_string (UpdatePatientRequest.name updateData)
                 (Patient.name existingPatient);
             Patient.history :=
               or_else truthy_string
                 (join ", " <$> UpdatePatientRequest.medicalHistory updateData)
                 (Patient.history existingPatient);
             Patient.date := Patient.date existingPatient;
             Patient.index := Patient.index existingPatient;
             Patient.biopsyConfirmed := Patient.biopsyConfirmed existingPatient;
             Patient.doctor := Patient.doctor existingPatient;
             Patient.createdAt := Patient.createdAt existingPatient;
             Patient.updatedAt := t_updated |} in
        (Return updatedPatient,
         with_memory (JsMap.set id updatedPatient (memoryPatients s)) s)
    end
  else
    let updatePayload := update_payload updateData in
    match getSupabase env with
    | Throw e => (Throw e, s)
    | Return _ =>
        let '(db, r) := update_eq_select_single updatePayload id (database s) in
        match error r, data r with
        | None, Some row => (Return (fromDbFormat row), with_database db s)
        | _, _ => (Throw not_found, with_database db s)
        end
    end.

Definition deletePatient (id : string) (s : State DB) : Outcome unit * State DB :=
  if isNoDB env then
    let '(deleted, m) := JsMap.delete id (memoryPatients s) in
    if deleted then (Return tt, with_memory m s)
    else (Throw not_found, with_memory m s)
  else
    match getSupabase env with
    | Throw e => (Throw e, s)
    | Return _ =>
        let '(db, r) := delete_eq_select_single id (database s) in
        match error r, data r with
        | None, Some _ => (Return tt, with_database db s)
        | _, _ => (Throw not_found, with_database db s)
        end
    end.

End Service.

End PatientService.

(** ** The [patients] table of [supabase_schema.sql] behind the client

    The columns, their defaults, [UNIQUE (patient_id)] and the trigger
    [update_patients_updated_at] are those of the schema; the row-level
    security policies admit every request.  [link] is the state of the
    transport: [Some e] when requests fail with [e] before reaching the table.
    [clock] is the text of [NOW()]; [uuid_generate_v4()] is drawn from a
    counter. *)

(** The column type [VARCHAR(n)].  A string of at most [n] characters is
    stored as it is; a longer one is refused, unless the characters beyond
    the [n]th are all spaces, in which case the first [n] characters are
    stored. *)
Module Sql.

(** A byte that continues a character of a UTF-8 string. *)
Definition continues (c : ascii) : bool :=
  let n := nat_of_ascii c in (128 <=? n)%nat && (n <? 192)%nat.


(** The first [n] characters of a string, and what follows them. *)
Fixpoint split_chars (n : nat) (s : string) : string * string :=
  match s with
  | EmptyString => (EmptyString, EmptyString)
  | String c rest =>
      if continues c then
        let '(head, tail) := split_chars n rest in (String c head, tail)
      else
        match n with
        | O => (EmptyString, s)
        | S n' => let '(head, tail) := split_chars n' rest in (String c head, tail)
        end
  end.

Fixpoint all_spaces (s : string) : bool :=
  match s with
  | EmptyString => true
  | String c rest => Ascii.eqb c " " && all_spaces rest
  end.

(** What a [VARCHAR(n)] column stores of [s]; [None] is the error
    [value too long for type character varying(n)]. *)
Definition varchar (n : nat) (s : string) : option string :=
  let '(head, tail) := split_chars n s in
  if all_spaces tail then Some head else None.

(** The same for a value that may be [NULL]. *)
Definition varchar_null (n : nat) (v : option string) : option (option string) :=
  match v with
  | None => Some None
  | Some s => Some <$> varchar n s
  end.

(** The same for a column that a payload may leave out. *)
Definition varchar_given (n : nat) (v : option string) : option (option string) :=
  varchar_null n v.

(** A value converted to the type of its column, or the error [e] of the
    conversion.  The values of a row are converted in the order of the
    columns, and the first error fails the statement. *)
Definition typed {E A : Type} (e : E) (v : option A) : E + A :=
  match v with
  | Some a => inr a
  | None => inl e
  end.

#[global] Instance sum_bind {E : Type} : MBind (sum E) :=
  λ A B f m, match m with inl e => inl e | inr a => f a end.

End Sql.

Module Postgres.

Record t := {
  patients : list PatientRow.t;
  link : option PostgrestError;
  clock : string;
  uuids : Z
}.

Definition with_patients (rows : list PatientRow.t) (db : t) : t :=
  {| patients := rows; link := link db; clock := clock db; uuids := uuids db |}.

(** [.single()] on a result that is not exactly one row. *)
Definition no_single_row : PostgrestError :=
  {| pg_message := "JSON object requested, multiple (or no) rows returned";
     pg_details := "The result contains 0 rows"; pg_hint := ""; pg_code := "PGRST116" |}.

(** A second row with the same [patient_id]. *)
Definition unique_violation : PostgrestError :=
  {| pg_message := "duplicate key value violates unique constraint patients_patient_id_key";
     pg_details := ""; pg_hint := ""; pg_code := "23505" |}.

(** A string that does not fit its [VARCHAR(n)] column. *)
Definition value_too_long (n : nat) : PostgrestError :=
  {| pg_message := "value too long for type character varying(" +:+ pretty n +:+ ")";
     pg_details := ""; pg_hint := ""; pg_code := "22001" |}.

Definition failed {A} (e : PostgrestError) : Response A :=
  {| data := None; error := Some e |}.

Definition ok {A} (a : A) : Response A :=
  {| data := Some a; error := None |}.

Definition matches (pid : string) (r : PatientRow.t) : bool :=
  bool_decide (PatientRow.patient_id r = pid).

(** [WHERE patient_id = pid] *)
Definition where_patient_id (pid : string) (rows : list PatientRow.t) : list PatientRow.t :=
  List.filter (matches pid) rows.

(** The row an [INSERT] stores: the given columns and the defaults. *)
Definition new_row (db : t) (ins : PatientInsert.t) : PatientRow.t :=
  {| PatientRow.id := "uuid-" +:+ pretty (uuids db);
     PatientRow.patient_id := PatientInsert.patient_id ins;
     PatientRow.name := PatientInsert.name ins;
     PatientRow.history := PatientInsert.history ins;
     PatientRow.date := PatientInsert.date ins;
     PatientRow.index := PatientInsert.index ins;
     PatientRow.biopsy_confirmed := PatientInsert.biopsy_confirmed ins;
     PatientRow.doctor := PatientInsert.doctor ins;
     PatientRow.created_at := clock db;
     PatientRow.updated_at := clock db |}.

(** The values of an [INSERT] as the columns [patient_id VARCHAR(255)],
    [name VARCHAR(255)], [date VARCHAR(100)], [index VARCHAR(255)] and
    [doctor VARCHAR(255)] take them ([history] is [TEXT]), or the length of
    the first column for which a value is too long. *)
Definition typed_insert (ins : PatientInsert.t) : nat + PatientInsert.t :=
  pid ← Sql.typed 255%nat (Sql.varchar 255 (PatientInsert.patient_id ins));
  name ← Sql.typed 255%nat (Sql.varchar 255 (PatientInsert.name ins));
  date ← Sql.typed 100%nat (Sql.varchar 100 (PatientInsert.date ins));
  index ← Sql.typed 255%nat (Sql.varchar 255 (PatientInsert.index ins));
  doctor ← Sql.typed 255%nat (Sql.varchar_null 255 (PatientInsert.doctor ins));
  inr {| PatientInsert.patient_id := pid;
          PatientInsert.name := name;
          PatientInsert.history := PatientInsert.history ins;
          PatientInsert.date := date;
          PatientInsert.index := index;
          PatientInsert.biopsy_confirmed := PatientInsert.biopsy_confirmed ins;
          PatientInsert.doctor := doctor |}.

(** The same for the columns that the payload of an [UPDATE] carries. *)
Definition typed_update (u : PatientUpdate.t) : nat + PatientUpdate.t :=
  pid ← Sql.typed 255%nat (Sql.varchar_given 255 (PatientUpdate.patient_id u));
  name ← Sql.typed 255%nat (Sql.varchar_given 255 (PatientUpdate.name u));
  date ← Sql.typed 100%nat (Sql.varchar_given 100 (PatientUpdate.date u));
  index ← Sql.typed 255%nat (Sql.varchar_given 255 (PatientUpdate.index u));
  doctor ←
    Sql.typed 255%nat
      match PatientUpdate.doctor u with
      | None => Some None
      | Some d => Some <$> Sql.varchar_null 255 d
      end;
  inr {| PatientUpdate.patient_id := pid;
          PatientUpdate.name := name;
          PatientUpdate.history := PatientUpdate.history u;
          PatientUpdate.date := date;
          PatientUpdate.index := index;
          PatientUpdate.biopsy_confirmed := PatientUpdate.biopsy_confirmed u;
          PatientUpdate.doctor := doctor |}.

(** A payload that names no column: the API then updates nothing and
    selects no row. *)
Definition no_columns (u : PatientUpdate.t) : bool :=
  match PatientUpdate.patient_id u, PatientUpdate.name u, PatientUpdate.history u,
        PatientUpdate.date u, PatientUpdate.index u, PatientUpdate.biopsy_confirmed u,
        PatientUpdate.doctor u with
  | None, None, None, None, None, None, None => true
  | _, _, _, _, _, _, _ => false
  end.

(** The row with the columns of a payload assigned, after the trigger
    [NEW.updated_at = NOW()]. *)
Definition assign (db : t) (u : PatientUpdate.t) (r : PatientRow.t) : PatientRow.t :=
  {| PatientRow.id := PatientRow.id r;
     PatientRow.patient_id := default (PatientRow.patient_id r) (PatientUpdate.patient_id u);
     PatientRow.name := default (PatientRow.name r) (PatientUpdate.name u);
     PatientRow.history := default (PatientRow.history r) (PatientUpdate.history u);
     PatientRow.date := default (PatientRow.date r) (PatientUpdate.date u);
     PatientRow.index := default (PatientRow.index r) (PatientUpdate.index u);
     PatientRow.biopsy_confirmed :=
       default (PatientRow.biopsy_confirmed r) (PatientUpdate.biopsy_confirmed u);
     PatientRow.doctor := default (PatientRow.doctor r) (PatientUpdate.doctor u);
     PatientRow.created_at := PatientRow.created_at r;
     PatientRow.updated_at := clock db |}.

(** [UPDATE ... SET] of the columns present in the payload, each value as
    its column takes it, followed by the trigger; or the length of the
    column for which a value is too long. *)
Definition set_columns (db : t) (u : PatientUpdate.t) (r : PatientRow.t)
    : nat + PatientRow.t :=
  u' ← typed_update u; inr (assign db u' r).

Definition replace_row (pid : string) (r' : PatientRow.t) (rows : list PatientRow.t)
    : list PatientRow.t :=
  (λ r, if matches pid r then r' else r) <$> rows.

Definition remove_rows (pid : string) (rows : list PatientRow.t) : list PatientRow.t :=
  List.filter (λ r, negb (matches pid r)) rows.

(** [ORDER BY created_at DESC]; the API renders every timestamp in one
    fixed-width UTC format, whose text order is the order of time. *)
Fixpoint insert_desc (r : PatientRow.t) (l : list PatientRow.t) : list PatientRow.t :=
  match l with
  | [] => [r]
  | q :: rest =>
      if String.leb (PatientRow.created_at q) (PatientRow.created_at r) then r :: q :: rest
      else q :: insert_desc r rest
  end.

Definition order_created_desc (rows : list PatientRow.t) : list PatientRow.t :=
  foldr insert_desc [] rows.

(** A request reaches the table only when the transport is up. *)
Definition request {A} (db : t) (run : t * Response A) : t * Response A :=
  match link db with
  | Some e => (db, failed e)
  | None => run
  end.

Definition select_all (db : t) : t * Response (list PatientRow.t) :=
  request db (db, ok (order_created_desc (patients db))).

Definition select_one (pid : string) (db : t) : t * Response PatientRow.t :=
  request db
    match where_patient_id pid (patients db) with
    | [r] => (db, ok r)
    | _ => (db, failed no_single_row)
    end.

(** The values are converted to the types of their columns before the
    constraint [UNIQUE (patient_id)] is checked. *)
Definition insert (ins : PatientInsert.t) (db : t) : t * Response PatientRow.t :=
  request db
    match typed_insert ins with
    | inl n => (db, failed (value_too_long n))
    | inr typed =>
        match where_patient_id (PatientInsert.patient_id typed) (patients db) with
        | [] =>
            let r := new_row db typed in
            ({| patients := patients db ++ [r]; link := link db; clock := clock db;
                uuids := uuids db + 1 |}, ok r)
        | _ => (db, failed unique_violation)
        end
    end.

(** A statement whose result is not a single row is rolled back; so is one
    that fails.  For a payload without columns no statement is run. *)
Definition update (u : PatientUpdate.t) (pid : string) (db : t) : t * Response PatientRow.t :=
  request db
    (if no_columns u then (db, failed no_single_row)
     else
       match where_patient_id pid (patients db) with
       | [r] =>
           match set_columns db u r with
           | inl n => (db, failed (value_too_long n))
           | inr r' =>
               if bool_decide (PatientRow.patient_id r' = pid) then
                 (with_patients (replace_row pid r' (patients db)) db, ok r')
               else
                 match where_patient_id (PatientRow.patient_id r') (patients db) with
                 | [] => (with_patients (replace_row pid r' (patients db)) db, ok r')
                 | _ => (db, failed unique_violation)
                 end
           end
       | _ => (db, failed no_single_row)
       end).

Definition delete (pid : string) (db : t) : t * Response PatientRow.t :=
  request db
    match where_patient_id pid (patients db) with
    | [r] => (with_patients (remove_rows pid (patients db)) db, ok r)
    | _ => (db, failed no_single_row)
    end.

#[global] Instance client : PatientsClient t := {
  select_order_created_desc := select_all;
  select_eq_single := select_one;
  insert_select_single := insert;
  update_eq_select_single := update;
  delete_eq_select_single := delete
}.

End Postgres.

(** ** Node and storage interfaces of the upload service *)

(** The functions of [path], [String] and [Buffer] that [upload.service.ts]
    calls, and the directories of the file system that it works in. *)
Class NodeApi := {
  (** [path.join(dir, name)] *)
  path_join : string → string → string;
  (** [path.extname(name)] *)
  path_extname : string → string;
  (** [String.prototype.toLowerCase] *)
  toLowerCase : string → string;
  (** [Buffer.from(text, 'base64')] *)
  Buffer_from_base64 : string → list byte;
  (** The paths that are directories, besides the uploads directory of the
      service: the service creates and removes none of them. *)
  fs_isDirectory : string → bool
}.

(** The three calls on [supabase.storage.from(bucket)]: a request takes the
    storage to its new state and reports an error or none. *)
Class StorageClient (B : Type) := {
  (** [.upload(name, buffer, { contentType, upsert })] *)
  storage_upload : string → string → list byte → string → bool → B → B * option StorageError;
  (** [.getPublicUrl(name).data.publicUrl] *)
  storage_public_url : string → string → B → string;
  (** [.remove(names)] *)
  storage_remove : string → list string → B → B * option StorageError
}.

(** ** State and exceptions threaded through a call *)

Module Run.
Section Run.
Context {S : Type}.

Definition M (A : Type) : Type := S → Outcome A * S.

Definition ret {A} (a : A) : M A := λ s, (Return a, s).

Definition throw {A} (e : Exn) : M A := λ s, (Throw e, s).

Definition bind {A B} (m : M A) (k : A → M B) : M B :=
  λ s, match m s with
       | (Return a, s') => k a s'
       | (Throw e, s') => (Throw e, s')
       end.

(** [try { m } catch (error) { handler(error) }] *)
Definition try_catch {A} (m : M A) (handler : Exn → M A) : M A :=
  λ s, match m s with
       | (Return a, s') => (Return a, s')
       | (Throw e, s') => handler e s'
       end.

(** A call that throws or returns without touching the state. *)
Definition lift {A} (o : Outcome A) : M A := λ s, (o, s).

(** A statement that only changes the state. *)
Definition modify (f : S → S) : M unit := λ s, (Return tt, f s).

Definition gets {A} (f : S → A) : M A := λ s, (Return (f s), s).

End Run.
Global Arguments M : clear implicits.
End Run.

Notation "'do' x <- m ; k" := (Run.bind m (λ x, k))
  (at level 10, x name, m at level 100, k at level 200,
   format "'[v' 'do'  x  <-  m ; '/' k ']'").
Notation "m ;; k" := (Run.bind m (λ _, k))
  (at level 100, k at level 200, right associativity).

(** ** [UploadService] ([upload.service.ts]) *)

Module MulterFile.
Record t := {
  filename : string;
  size : Z
}.
End MulterFile.

Module ProcessedImageResult.
Record t := {
  filename : string;
  imageUrl : string;
  filePath : string;
  size : Z
}.
End ProcessedImageResult.

Module UploadService.

Definition BUCKET_NAME : string := "oral_images".

Inductive Level := LogWarn | LogError.

(** A line of the console: its level, its label and the message of the error
    printed after it. *)
Record Line := {
  level : Level;
  label : string;
  detail : string
}.

(** The local disk (the regular files by path, read and written without
    device failure), the storage behind the client, and the console.  A path
    with no regular file may still be a directory, see [is_directory]. *)
Record State (B : Type) := {
  disk : gmap string (list byte);
  storage : B;
  console : list Line
}.
Arguments disk {B} _.
Arguments storage {B} _.
Arguments console {B} _.

Definition message_of (e : Exn) : string :=
  match e with
  | HttpError m _ => m
  | ClientError e => pg_message e
  | Error m => m
  | TypeError m => m
  end.

(** *** The pattern [/^data:image\/([a-zA-Z]+);base64,(.+)$/] *)

Definition is_letter (c : ascii) : bool :=
  let n := nat_of_ascii c in
  ((65 <=? n)%nat && (n <=? 90)%nat) || ((97 <=? n)%nat && (n <=? 122)%nat).

(** [strip_prefix p s] is [Some rest] when [s] is [p] followed by [rest]. *)
Fixpoint strip_prefix (p s : string) : option string :=
  match p, s with
  | EmptyString, _ => Some s
  | String a p', String b s' => if Ascii.eqb a b then strip_prefix p' s' else None
  | String _ _, EmptyString => None
  end.

(** The longest run of letters at the head of [s], and what follows it. *)
Fixpoint span_letters (s : string) : string * string :=
  match s with
  | String c rest =>
      if is_letter c then
        let '(run, tail) := span_letters rest in (String c run, tail)
      else (EmptyString, s)
  | EmptyString => (EmptyString, EmptyString)
  end.

(** The characters [.] does not match: LF, CR, U+2028 and U+2029 (the bytes
    E2 80 A8 and E2 80 A9 in UTF-8). *)
Fixpoint has_line_terminator (s : string) : bool :=
  match s with
  | EmptyString => false
  | String c rest =>
      if Ascii.eqb c "010" || Ascii.eqb c "013" then true
      else
        match c, rest with
        | "226"%char, String "128"%char (String d _) =>
            if Ascii.eqb d "168" || Ascii.eqb d "169" then true
            else has_line_terminator rest
        | _, _ => has_line_terminator rest
        end
  end.

(** [base64Data.match(...)]: the two groups, when the whole string matches. *)
Definition match_data_url (base64Data : string) : option (string * string) :=
  match strip_prefix "data:image/" base64Data with
  | None => None
  | Some rest =>
      let '(kind, rest') := span_letters rest in
      if String.eqb kind "" then None
      else
        match strip_prefix ";base64," rest' with
        | None => None
        | Some payload =>
            if String.eqb payload "" || has_line_terminator payload then None
            else Some (kind, payload)
        end
  end.

(** *** The service *)

Section Service.
Context `{NodeApi} {B : Type} `{StorageClient B}.
(** The environment of the process and the field [uploadsDir] of the service. *)
Variable env : Env.
Variable uploadsDir : string.

Abbreviation M := (Run.M (State B)).

Definition console_log (lv : Level) (lbl : string) (d : string) : M unit :=
  Run.modify (λ s, {| disk := disk s; storage := storage s;
                      console := console s ++ [{| level := lv; label := lbl; detail := d |}] |}).

(** The directories: the uploads directory, which the constructor creates
    when it is missing ([ensureUploadsDirectory], [mkdirSync] with
    [recursive]), and the directories of the file system besides it.  A path
    that holds a regular file is that file. *)
Definition is_directory (p : string) : bool :=
  bool_decide (p = uploadsDir) || fs_isDirectory p.

(** [fs.existsSync], [fs.readFileSync], [fs.writeFileSync], [fs.unlinkSync].
    A directory exists, and can be neither read nor unlinked as a file.  The
    service writes files at the names that it generates only. *)
Definition existsSync (p : string) : M bool :=
  Run.gets (λ s, bool_decide (is_Some (disk s !! p)) || is_directory p).

Definition readFileSync (p : string) : M (list byte) :=
  λ s, match disk s !! p with
       | Some bytes => (Return bytes, s)
       | None =>
           if is_directory p then
             (Throw (Error "EISDIR: illegal operation on a directory, read"), s)
           else
             (Throw (Error ("ENOENT: no such file or directory, open '" +:+ p +:+ "'")), s)
       end.

Definition writeFileSync (p : string) (bytes : list byte) : M unit :=
  Run.modify (λ s, {| disk := <[p := bytes]> (disk s); storage := storage s;
                      console := console s |}).

Definition unlinkSync (p : string) : M unit :=
  λ s, match disk s !! p with
       | Some _ => (Return tt, {| disk := delete p (disk s); storage := storage s;
                                  console := console s |})
       | None =>
           if is_directory p then
             (Throw (Error ("EISDIR: illegal operation on a directory, unlink '"
                            +:+ p +:+ "'")), s)
           else
             (Throw (Error ("ENOENT: no such file or directory, unlink '" +:+ p +:+ "'")), s)
       end.

(** A request of the storage client. *)
Definition request (call : B → B * option StorageError) : M (option StorageError) :=
  λ s, let '(b, err) := call (storage s) in
       (Return err, {| disk := disk s; storage := b; console := console s |}).

Definition getContentType (filename : string) : string :=
  let ext := toLowerCase (path_extname filename) in
  if String.eqb ext ".png" then "image/png"
  else if String.eqb ext ".webp" then "image/webp"
  else "image/jpeg".

Definition uploadToSupabase (filename : string) (buffer : list byte) : M string :=
  do _ <- Run.lift (getSupabase env);
  let contentType := getContentType filename in
  do error <- request (storage_upload BUCKET_NAME filename buffer contentType true);
  match error with
  | Some e =>
      console_log LogError "Supabase storage upload error:" (st_message e) ;;
      Run.throw (Error ("Failed to upload to Supabase: " +:+ st_message e))
  | None =>
      Run.gets (λ s, storage_public_url BUCKET_NAME filename (storage s))
  end.

Definition processImage (file : MulterFile.t) : M ProcessedImageResult.t :=
  Run.try_catch
    (let filePath := path_join uploadsDir (MulterFile.filename file) in
     do buffer <- readFileSync filePath;
     do imageUrl <- uploadToSupabase (MulterFile.filename file) buffer;
     Run.ret {| ProcessedImageResult.filename := MulterFile.filename file;
                ProcessedImageResult.imageUrl := imageUrl;
                ProcessedImageResult.filePath := filePath;
                ProcessedImageResult.size := MulterFile.size file |})
    (λ error,
     console_log LogError "Image processing error:" (message_of error) ;;
     Run.throw (Error "Failed to process image")).

Definition deleteImage (filename : string) : M unit :=
  Run.try_catch
    (let filePath := path_join uploadsDir filename in
     do present <- existsSync filePath;
     (if present then unlinkSync filePath else Run.ret tt) ;;
     do _ <- Run.lift (getSupabase env);
     do error <- request (storage_remove BUCKET_NAME [filename]);
     match error with
     | Some e => console_log LogWarn "Supabase storage delete warning:" (st_message e)
     | None => Run.ret tt
     end)
    (λ error,
     console_log LogError "Delete image error:" (message_of error) ;;
     Run.throw (Error "Failed to delete image")).

(** [now] is the value of [Date.now()] and [suffix] that of
    [Math.random().toString(36).substring(7)]. *)
Definition saveBase64Image (now : Z) (suffix : string) (base64Data : string)
    : M ProcessedImageResult.t :=
  Run.try_catch
    (match match_data_url base64Data with
     | None => Run.throw (Error "无效的base64图片格式")
     | Some (kind, payload) =>
         let ext := if String.eqb kind "jpeg" then "jpg" else kind in
         let imageBuffer := Buffer_from_base64 payload in
         let filename := "seg_" +:+ pretty now +:+ "_" +:+ suffix +:+ "." +:+ ext in
         let filePath := path_join uploadsDir filename in
         writeFileSync filePath imageBuffer ;;
         do imageUrl <- uploadToSupabase filename imageBuffer;
         Run.ret {| ProcessedImageResult.filename := filename;
                    ProcessedImageResult.imageUrl := imageUrl;
                    ProcessedImageResult.filePath := filePath;
                    ProcessedImageResult.size := Z.of_nat (length imageBuffer) |}
     end)
    (λ error,
     console_log LogError "Save base64 image error:" (message_of error) ;;
     Run.throw (Error "Failed to save base64 image")).

End Service.

End UploadService.

(** ** A storage bucket behind the storage client

    Objects by bucket and name, with their content type.  [outage] is the
    state of the service: [Some e] when every request is answered by [e]. *)

Module Bucket.

Record t := {
  objects : gmap (string * string) (list byte * string);
  outage : option StorageError;
  endpoint : string
}.

Definition with_objects (o : gmap (string * string) (list byte * string)) (b : t) : t :=
  {| objects := o; outage := outage b; endpoint := endpoint b |}.

Definition already_exists : StorageError :=
  {| st_message := "The resource already exists" |}.

Definition upload (bucket name : string) (bytes : list byte) (contentType : string)
    (upsert : bool) (b : t) : t * option StorageError :=
  match outage b with
  | Some e => (b, Some e)
  | None =>
      if upsert || negb (bool_decide (is_Some (objects b !! (bucket, name)))) then
        (with_objects (<[(bucket, name) := (bytes, contentType)]> (objects b)) b, None)
      else (b, Some already_exists)
  end.

Definition public_url (bucket name : string) (b : t) : string :=
  endpoint b +:+ "/storage/v1/object/public/" +:+ bucket +:+ "/" +:+ name.

Definition remove (bucket : string) (names : list string) (b : t) : t * option StorageError :=
  match outage b with
  | Some e => (b, Some e)
  | None =>
      (with_objects (foldr (λ name o, delete (bucket, name) o) (objects b) names) b, None)
  end.

#[global] Instance client : StorageClient t := {
  storage_upload := upload;
  storage_public_url := public_url;
  storage_remove := remove
}.

End Bucket.

(** ** Reference implementations of the runtime functions

    Used to run the services on concrete inputs: plain file names under a
    directory, no directory besides the uploads directory, ASCII case
    folding, Node's lenient base64 decoder, and dates of the years 0000 to
    9999 in the format of [toISOString]. *)

Module Reference.

(** [path.join] for a plain name; the empty name and [.] leave the directory. *)
Definition join_path (dir name : string) : string :=
  if String.eqb name "" || String.eqb name "." then dir else dir +:+ "/" +:+ name.

(** The text from the last dot on. *)
Fixpoint from_last_dot (s : string) : option string :=
  match s with
  | EmptyString => None
  | String c rest =>
      match from_last_dot rest with
      | Some e => Some e
      | None => if Ascii.eqb c "." then Some s else None
      end
  end.

(** A leading dot does not start an extension. *)
Definition extname (name : string) : string :=
  match name with
  | String _ rest => default "" (from_last_dot rest)
  | EmptyString => ""
  end.

Definition lower_char (c : ascii) : ascii :=
  let n := nat_of_ascii c in
  if (65 <=? n)%nat && (n <=? 90)%nat then ascii_of_nat (n + 32) else c.

Fixpoint lower (s : string) : string :=
  match s with
  | EmptyString => EmptyString
  | String c rest => String (lower_char c) (lower rest)
  end.

(** The value of a base64 digit, of either alphabet. *)
Definition sextet (c : ascii) : option N :=
  let n := N_of_ascii c in
  if (65 <=? n)%N && (n <=? 90)%N then Some (n - 65)%N
  else if (97 <=? n)%N && (n <=? 122)%N then Some (n - 71)%N
  else if (48 <=? n)%N && (n <=? 57)%N then Some (n + 4)%N
  else if (n =? 43)%N || (n =? 45)%N then Some 62%N
  else if (n =? 47)%N || (n =? 95)%N then Some 63%N
  else None.

(** Digits up to the first [=]; other characters are skipped. *)
Fixpoint sextets (s : string) : list N :=
  match s with
  | EmptyString => []
  | String c rest =>
      if Ascii.eqb c "=" then []
      else match sextet c with
           | Some v => v :: sextets rest
           | None => sextets rest
           end
  end.

Definition octet (n : N) : byte := default x00 (Byte.of_N (n mod 256)%N).

Fixpoint octets (l : list N) : list byte :=
  match l with
  | a :: b :: c :: d :: rest =>
      octet (a * 4 + b / 16) :: octet (b mod 16 * 16 + c / 4) :: octet (c mod 4 * 64 + d)
        :: octets rest
  | [a; b; c] => [octet (a * 4 + b / 16); octet (b mod 16 * 16 + c / 4)]
  | [a; b] => [octet (a * 4 + b / 16)]
  | _ => []
  end.

Definition from_base64 (s : string) : list byte := octets (sextets s).

#[global] Instance node : NodeApi := {
  path_join := join_path;
  path_extname := extname;
  toLowerCase := lower;
  Buffer_from_base64 := from_base64;
  fs_isDirectory := λ _, false
}.

(** [n] in decimal, padded with zeros to [width] digits. *)
Fixpoint digits (width : nat) (n : Z) : string :=
  match width with
  | O => EmptyString
  | S w => digits w (n / 10) +:+ pretty (n mod 10)
  end.

(** Year, month and day of a day number counted from 1970-01-01. *)
Definition civil (days : Z) : Z * Z * Z :=
  let z := days + 719468 in
  let era := z / 146097 in
  let doe := z mod 146097 in
  let yoe := (doe - doe / 1460 + doe / 36524 - doe / 146096) / 365 in
  let doy := doe - (365 * yoe + yoe / 4 - yoe / 100) in
  let mp := (5 * doy + 2) / 153 in
  let d := doy - (153 * mp + 2) / 5 + 1 in
  let m := if mp <? 10 then mp + 3 else mp - 9 in
  (yoe + era * 400 + (if m <=? 2 then 1 else 0), m, d).

Definition iso (ms : Z) : string :=
  let '(y, m, d) := civil (ms / 86400000) in
  let t := ms mod 86400000 in
  digits 4 y +:+ "-" +:+ digits 2 m +:+ "-" +:+ digits 2 d +:+ "T"
    +:+ digits 2 (t / 3600000) +:+ ":" +:+ digits 2 (t / 60000 mod 60) +:+ ":"
    +:+ digits 2 (t / 1000 mod 60) +:+ "." +:+ digits 3 (t mod 1000) +:+ "Z".

(** The day number of a date. *)
Definition day_number (y m d : Z) : Z :=
  let y' := if m <=? 2 then y - 1 else y in
  let era := y' / 400 in
  let yoe := y' mod 400 in
  let doy := (153 * (if 2 <? m then m - 3 else m + 9) + 2) / 5 + d - 1 in
  era * 146097 + (yoe * 365 + yoe / 4 - yoe / 100 + doy) - 719468.

(** The number a run of decimal digits denotes. *)
Fixpoint number (acc : Z) (s : string) : Z :=
  match s with
  | EmptyString => acc
  | String c rest => number (acc * 10 + (Z.of_nat (nat_of_ascii c) - 48)) rest
  end.

Definition field (from len : nat) (s : string) : Z := number 0 (String.substring from len s).

(** [YYYY-MM-DDTHH:MM:SS.mmm], read as UTC. *)
Definition parse (s : string) : Z :=
  day_number (field 0 4 s) (field 5 2 s) (field 8 2 s) * 86400000
  + field 11 2 s * 3600000 + field 14 2 s * 60000 + field 17 2 s * 1000 + field 20 3 s.

#[global] Instance dates : DateApi := {
  toISOString := iso;
  Date_parse := parse
}.

End Reference.

(** ** The [diagnoses] table ([supabase_schema.sql], [database.types.ts]) *)

Inductive DiagnosisType := gastritis | oral.
Inductive SeverityLevel := low | medium | high.

Record Detection := {
  class_name : string;
  detection_confidence : Q;
  bbox : list Q
}.

Module DiagnosisRow.
Record t := {
  id : string;
  patient_id : string;
  type : DiagnosisType;
  image_url : string;
  confidence : Q;
  finding : string;
  recommendation : string;
  severity : option SeverityLevel;
  report_recommendation : option string;
  status_code : option string;
  olp_score : option Q;
  olk_score : option Q;
  ooml_score : option Q;
  opmd_score : option Q;
  knowledge : option string;
  annotated_image_url : option string;
  detections : option (list Detection);
  created_at : string;
  updated_at : string
}.
End DiagnosisRow.

(** An optional member that is left out and one that is [null] both store
    [NULL], the default of every optional column. *)
Module DiagnosisInsert.
Record t := {
  patient_id : string;
  type : DiagnosisType;
  image_url : string;
  confidence : Q;
  finding : string;
  recommendation : string;
  severity : option SeverityLevel;
  report_recommendation : option string;
  status_code : option string;
  olp_score : option Q;
  olk_score : option Q;
  ooml_score : option Q;
  opmd_score : option Q;
  knowledge : option string;
  annotated_image_url : option string;
  detections : option (list Detection)
}.
End DiagnosisInsert.

(** [None] leaves a column as it is; [Some v] sets it, [Some None] to [NULL]. *)
Module DiagnosisUpdate.
Record t := {
  patient_id : option string;
  type : option DiagnosisType;
  image_url : option string;
  confidence : option Q;
  finding : option string;
  recommendation : option string;
  severity : option (option SeverityLevel);
  report_recommendation : option (option string);
  status_code : option (option string);
  olp_score : option (option Q);
  olk_score : option (option Q);
  ooml_score : option (option Q);
  opmd_score : option (option Q);
  knowledge : option (option string);
  annotated_image_url : option (option string);
  detections : option (option (list Detection))
}.
End DiagnosisUpdate.

Module Diagnoses.

Record t := {
  rows : list DiagnosisRow.t;
  clock : string;
  uuids : Z
}.

Inductive SqlError :=
| string_data_right_truncation
| numeric_field_overflow
| check_violation.

(** A column value converted to its type, or the error of the conversion. *)
Abbreviation typed := (@Sql.typed SqlError _).

(** *** The column type [DECIMAL(5,4)]

    A value is rounded to four decimal places, ties away from zero; the
    statement fails when the rounded value has more than one digit before the
    decimal point.  Constraints are checked on the value so converted. *)

(** The rounded value, in ten-thousandths. *)
Definition round_scale4 (q : Q) : Z :=
  let n := Qnum q * 10000 in
  let d := Z.pos (Qden q) in
  if 0 <=? n then (2 * n + d) / (2 * d) else - ((2 * - n + d) / (2 * d)).

Definition decimal_5_4 (q : Q) : option Q :=
  let u := round_scale4 q in
  if Z.abs u <? 100000 then Some (u # 10000) else None.

Definition decimal_5_4_null (v : option Q) : option (option Q) :=
  match v with
  | None => Some None
  | Some q => Some <$> decimal_5_4 q
  end.

(** *** The [CHECK] constraints *)

(** [c >= 0 AND c <= 1] *)
Definition in_unit (c : Q) : bool := Qle_bool 0 c && Qle_bool c 1.

(** [c IS NULL OR (c >= 0 AND c <= 1)] *)
Definition null_or_in_unit (c : option Q) : bool :=
  match c with
  | None => true
  | Some q => in_unit q
  end.

Definition checks (r : DiagnosisRow.t) : bool :=
  in_unit (DiagnosisRow.confidence r)
  && null_or_in_unit (DiagnosisRow.olp_score r)
  && null_or_in_unit (DiagnosisRow.olk_score r)
  && null_or_in_unit (DiagnosisRow.ooml_score r)
  && null_or_in_unit (DiagnosisRow.opmd_score r).

(** *** Statements *)

(** The row of an [INSERT], its columns converted to their types:
    [patient_id VARCHAR(255)], [status_code VARCHAR(100)] and the five
    numbers [DECIMAL(5,4)]. *)
Definition new_row (db : t) (ins : DiagnosisInsert.t) : SqlError + DiagnosisRow.t :=
  pid ← typed string_data_right_truncation
          (Sql.varchar 255 (DiagnosisInsert.patient_id ins));
  c ← typed numeric_field_overflow (decimal_5_4 (DiagnosisInsert.confidence ins));
  code ← typed string_data_right_truncation
           (Sql.varchar_null 100 (DiagnosisInsert.status_code ins));
  olp ← typed numeric_field_overflow (decimal_5_4_null (DiagnosisInsert.olp_score ins));
  olk ← typed numeric_field_overflow (decimal_5_4_null (DiagnosisInsert.olk_score ins));
  ooml ← typed numeric_field_overflow (decimal_5_4_null (DiagnosisInsert.ooml_score ins));
  opmd ← typed numeric_field_overflow (decimal_5_4_null (DiagnosisInsert.opmd_score ins));
  inr
    {| DiagnosisRow.id := "uuid-" +:+ pretty (uuids db);
       DiagnosisRow.patient_id := pid;
       DiagnosisRow.type := DiagnosisInsert.type ins;
       DiagnosisRow.image_url := DiagnosisInsert.image_url ins;
       DiagnosisRow.confidence := c;
       DiagnosisRow.finding := DiagnosisInsert.finding ins;
       DiagnosisRow.recommendation := DiagnosisInsert.recommendation ins;
       DiagnosisRow.severity := DiagnosisInsert.severity ins;
       DiagnosisRow.report_recommendation := DiagnosisInsert.report_recommendation ins;
       DiagnosisRow.status_code := code;
       DiagnosisRow.olp_score := olp;
       DiagnosisRow.olk_score := olk;
       DiagnosisRow.ooml_score := ooml;
       DiagnosisRow.opmd_score := opmd;
       DiagnosisRow.knowledge := DiagnosisInsert.knowledge ins;
       DiagnosisRow.annotated_image_url := DiagnosisInsert.annotated_image_url ins;
       DiagnosisRow.detections := DiagnosisInsert.detections ins;
       DiagnosisRow.created_at := clock db;
       DiagnosisRow.updated_at := clock db |}.

(** A numeric column after [SET]: kept, or the converted new value. *)
Definition set_decimal (old : Q) (new : option Q) : option Q :=
  match new with
  | None => Some old
  | Some q => decimal_5_4 q
  end.

Definition set_decimal_null (old : option Q) (new : option (option Q)) : option (option Q) :=
  match new with
  | None => Some old
  | Some v => decimal_5_4_null v
  end.

(** A text column with a length after [SET]. *)
Definition set_varchar (n : nat) (old : string) (new : option string) : option string :=
  match new with
  | None => Some old
  | Some s => Sql.varchar n s
  end.

Definition set_varchar_null (n : nat) (old : option string) (new : option (option string))
    : option (option string) :=
  match new with
  | None => Some old
  | Some v => Sql.varchar_null n v
  end.

(** The row of an [UPDATE], after the trigger [update_diagnoses_updated_at]. *)
Definition set_columns (db : t) (u : DiagnosisUpdate.t) (r : DiagnosisRow.t)
    : SqlError + DiagnosisRow.t :=
  pid ← typed string_data_right_truncation
          (set_varchar 255 (DiagnosisRow.patient_id r) (DiagnosisUpdate.patient_id u));
  c ← typed numeric_field_overflow
        (set_decimal (DiagnosisRow.confidence r) (DiagnosisUpdate.confidence u));
  code ← typed string_data_right_truncation
           (set_varchar_null 100 (DiagnosisRow.status_code r)
              (DiagnosisUpdate.status_code u));
  olp ← typed numeric_field_overflow
          (set_decimal_null (DiagnosisRow.olp_score r) (DiagnosisUpdate.olp_score u));
  olk ← typed numeric_field_overflow
          (set_decimal_null (DiagnosisRow.olk_score r) (DiagnosisUpdate.olk_score u));
  ooml ← typed numeric_field_overflow
           (set_decimal_null (DiagnosisRow.ooml_score r) (DiagnosisUpdate.ooml_score u));
  opmd ← typed numeric_field_overflow
           (set_decimal_null (DiagnosisRow.opmd_score r) (DiagnosisUpdate.opmd_score u));
  inr
    {| DiagnosisRow.id := DiagnosisRow.id r;
       DiagnosisRow.patient_id := pid;
       DiagnosisRow.type := default (DiagnosisRow.type r) (DiagnosisUpdate.type u);
       DiagnosisRow.image_url := default (DiagnosisRow.image_url r) (DiagnosisUpdate.image_url u);
       DiagnosisRow.confidence := c;
       DiagnosisRow.finding := default (DiagnosisRow.finding r) (DiagnosisUpdate.finding u);
       DiagnosisRow.recommendation :=
         default (DiagnosisRow.recommendation r) (DiagnosisUpdate.recommendation u);
       DiagnosisRow.severity := default (DiagnosisRow.severity r) (DiagnosisUpdate.severity u);
       DiagnosisRow.report_recommendation :=
         default (DiagnosisRow.report_recommendation r) (DiagnosisUpdate.report_recommendation u);
       DiagnosisRow.status_code := code;
       DiagnosisRow.olp_score := olp;
       DiagnosisRow.olk_score := olk;
       DiagnosisRow.ooml_score := ooml;
       DiagnosisRow.opmd_score := opmd;
       DiagnosisRow.knowledge := default (DiagnosisRow.knowledge r) (DiagnosisUpdate.knowledge u);
       DiagnosisRow.annotated_image_url :=
         default (DiagnosisRow.annotated_image_url r) (DiagnosisUpdate.annotated_image_url u);
       DiagnosisRow.detections :=
         default (DiagnosisRow.detections r) (DiagnosisUpdate.detections u);
       DiagnosisRow.created_at := DiagnosisRow.created_at r;
       DiagnosisRow.updated_at := clock db |}.

(** A converted row is stored only if it passes the constraints. *)
Definition admit_row (r : SqlError + DiagnosisRow.t) : SqlError + DiagnosisRow.t :=
  row ← r;
  if checks row then inr row else inl check_violation.

Definition insert (ins : DiagnosisInsert.t) (db : t) : SqlError + t :=
  match admit_row (new_row db ins) with
  | inl e => inl e
  | inr row => inr {| rows := rows db ++ [row]; clock := clock db; uuids := uuids db + 1 |}
  end.

(** The rows of an [UPDATE ... WHERE]: one failing row fails the statement. *)
Fixpoint update_rows (db : t) (cond : DiagnosisRow.t → bool) (u : DiagnosisUpdate.t)
    (l : list DiagnosisRow.t) : SqlError + list DiagnosisRow.t :=
  match l with
  | [] => inr []
  | r :: rest =>
      match (if cond r then admit_row (set_columns db u r) else inr r) with
      | inl e => inl e
      | inr r' =>
          match update_rows db cond u rest with
          | inl e => inl e
          | inr rest' => inr (r' :: rest')
          end
      end
  end.

Definition update (cond : DiagnosisRow.t → bool) (u : DiagnosisUpdate.t) (db : t)
    : SqlError + t :=
  match update_rows db cond u (rows db) with
  | inl e => inl e
  | inr l => inr {| rows := l; clock := clock db; uuids := uuids db |}
  end.

Definition delete (cond : DiagnosisRow.t → bool) (db : t) : t :=
  {| rows := List.filter (λ r, negb (cond r)) (rows db); clock := clock db; uuids := uuids db |}.

(** Time passing between statements. *)
Definition tick (now : string) (db : t) : t :=
  {| rows := rows db; clock := now; uuids := uuids db |}.

(** The states of the table that writes can lead to. *)
Inductive reachable : t → Prop :=
| reach_empty now n : reachable {| rows := []; clock := now; uuids := n |}
| reach_tick now db : reachable db → reachable (tick now db)
| reach_insert ins db db' : reachable db → insert ins db = inr db' → reachable db'
| reach_update cond u db db' : reachable db → update cond u db = inr db' → reachable db'
| reach_delete cond db : reachable db → reachable (delete cond db).




End Diagnoses.

(** ** [testConnection] ([config/supabase.ts]) *)

(** The query [client.from('patients').select('id').limit(1)]. *)
Class ProbeClient (DB : Type) := {
  select_id_limit_1 : DB → DB * Response (list string)
}.

#[global] Instance postgres_probe : ProbeClient Postgres.t := {
  select_id_limit_1 db :=
    Postgres.request db (db, Postgres.ok (take 1 (PatientRow.id <$> Postgres.patients db)))
}.

Module Connection.
Section Connection.
Context {DB : Type} `{ProbeClient DB}.
Variable env : Env.

(** The lines written to the logger are left out. *)
Definition testConnection : Run.M DB bool :=
  Run.try_catch
    (do _ <- Run.lift (getSupabase env);
     do r <- (λ db, let '(db', r) := select_id_limit_1 db in (Return r, db'));
     match error r with
     | Some _ => Run.ret false
     | None => Run.ret true
     end)
    (λ _, Run.ret false).

End Connection.
End Connection.

(** ** States that the patient service leads to *)

Section Reachable.
Context `{DateApi}.
Variable env : Env.

(** From an empty [memoryPatients], by the three operations that write. *)
Inductive memory_reachable {DB : Type} `{PatientsClient DB}
    : PatientService.State DB → Prop :=
| memory_start db :
    memory_reachable
      {| PatientService.memoryPatients := []; PatientService.database := db |}
| memory_create now t1 t2 t3 req s :
    memory_reachable s →
    memory_reachable (snd (PatientService.createPatient env now t1 t2 t3 req s))
| memory_update t u s :
    memory_reachable s →
    memory_reachable (snd (PatientService.updatePatient env t u s))
| memory_delete id s :
    memory_reachable s →
    memory_reachable (snd (PatientService.deletePatient env id s)).

(** From an empty [patients] table, by the three operations that write, while
    the transport and the time of the database change at will. *)
Inductive table_reachable : PatientService.State Postgres.t → Prop :=
| table_start m l c n :
    table_reachable
      {| PatientService.memoryPatients := m;
         PatientService.database :=
           {| Postgres.patients := []; Postgres.link := l; Postgres.clock := c;
              Postgres.uuids := n |} |}
| table_weather l c s :
    table_reachable s →
    table_reachable
      (PatientService.with_database
         {| Postgres.patients := Postgres.patients (PatientService.database s);
            Postgres.link := l; Postgres.clock := c;
            Postgres.uuids := Postgres.uuids (PatientService.database s) |} s)
| table_create now t1 t2 t3 req s :
    table_reachable s →
    table_reachable (snd (PatientService.createPatient env now t1 t2 t3 req s))
| table_update t u s :
    table_reachable s →
    table_reachable (snd (PatientService.updatePatient env t u s))
| table_delete id s :
    table_reachable s →
    table_reachable (snd (PatientService.deletePatient env id s)).

End Reachable.

(** Every entry of the map is filed under the identifier of its patient, and
    no key occurs twice. *)
Definition keyed_by_id (m : JsMap.t Patient.t) : Prop :=
  Forall (λ kp, Patient.id kp.2 = kp.1) m ∧ NoDup m.*1.

(** [l] lists patients from the latest creation to the earliest. *)
Definition latest_first (l : list Patient.t) : Prop :=
  StronglySorted (λ p q, Patient.createdAt q <= Patient.createdAt p) l.

(** ** Vocabulary of the properties *)






(** A response that carries an error or no data. *)
Definition failed_or_empty {A} (r : Response A) : Prop :=
  error r ≠ None ∨ data r = None.

(** The strings that the pattern of [saveBase64Image] matches, with the
    text of its two groups. *)
Fixpoint all_letters (s : string) : bool :=
  match s with
  | EmptyString => true
  | String c rest => UploadService.is_letter c && all_letters rest
  end.

Definition is_data_url (s kind payload : string) : Prop :=
  s = "data:image/" +:+ kind +:+ ";base64," +:+ payload
  ∧ kind ≠ "" ∧ all_letters kind = true
  ∧ payload ≠ "" ∧ UploadService.has_line_terminator payload = false.

(** The line that [deleteImage] prints for an error of the storage. *)
Definition delete_warning (e : option StorageError) : list UploadService.Line :=
  match e with
  | Some e => [{| UploadService.level := UploadService.LogWarn; UploadService.label := "Supabase storage delete warning:";
                  UploadService.detail := st_message e |}]
  | None => []
  end.

(** The file name [saveBase64Image] generates for an image of the kind
    [kind], at the time [now] with the random suffix [suffix]. *)
Definition generated_filename (now : Z) (suffix kind : string) : string :=
  "seg_" +:+ pretty now +:+ "_" +:+ suffix +:+ "."
    +:+ (if String.eqb kind "jpeg" then "jpg" else kind).




(** No two rows of the table have the same [patient_id]. *)
Definition unique_patient_ids (db : Postgres.t) : Prop :=
  NoDup (PatientRow.patient_id <$> Postgres.patients db).






(** A number as [DECIMAL(5,4)] holds it: so many ten-thousandths, fewer than
    a hundred thousand. *)
Definition stored_decimal (q : Q) : Prop :=
  ∃ u : Z, q = (u # 10000)%Q ∧ Z.abs u < 100000.

Definition stored_score (v : option Q) : Prop :=
  ∀ q, v = Some q → stored_decimal q.

Definition stored_numbers (r : DiagnosisRow.t) : Prop :=
  stored_decimal (DiagnosisRow.confidence r)
  ∧ stored_score (DiagnosisRow.olp_score r)
  ∧ stored_score (DiagnosisRow.olk_score r)
  ∧ stored_score (DiagnosisRow.ooml_score r)
  ∧ stored_score (DiagnosisRow.opmd_score r).


(** ** Sample data *)

Module Sample.

(** In-memory mode, and database mode with the credentials set. *)
Definition memory_env : Env :=
  {| NO_DB := Some "true"; SUPABASE_URL := None; SUPABASE_ANON_KEY := None |}.

Definition database_env : Env :=
  {| NO_DB := None; SUPABASE_URL := Some "https://medapp.supabase.co";
     SUPABASE_ANON_KEY := Some "anon-key" |}.

Definition alice : Patient.t :=
  {| Patient.id := "patient-1700000000123";
     Patient.name := "Alice";
     Patient.history := "asthma";
     Patient.date := "2023-11-14";
     Patient.index := "1700000000123";
     Patient.biopsyConfirmed := Some false;
     Patient.doctor := Some "Unknown";
     Patient.createdAt := 1700000000123;
     Patient.updatedAt := 1700000000123 |}.

Definition alice_row : PatientRow.t :=
  {| PatientRow.id := "uuid-7";
     PatientRow.patient_id := "patient-1700000000123";
     PatientRow.name := "Alice";
     PatientRow.history := "asthma";
     PatientRow.date := "2023-11-14";
     PatientRow.index := "1700000000123";
     PatientRow.biopsy_confirmed := None;
     PatientRow.doctor := Some "Unknown";
     PatientRow.created_at := "2023-11-14T22:13:20.123Z";
     PatientRow.updated_at := "2023-11-14T22:13:20.123Z" |}.

Definition request_bob : CreatePatientRequest.t :=
  {| CreatePatientRequest.name := "Bob";
     CreatePatientRequest.medicalHistory := Some ["diabetes"; "smoker"] |}.


(** A name of 256 letters, one more than the column [name] takes. *)
Definition long_name : string := String.string_of_list_ascii (replicate 256 "a"%char).

Definition fetch_failed : PostgrestError :=
  {| pg_message := "TypeError: fetch failed"; pg_details := ""; pg_hint := ""; pg_code := "" |}.

(** A database holding Alice, reachable or cut off. *)
Definition database (l : option PostgrestError) : Postgres.t :=
  {| Postgres.patients := [alice_row]; Postgres.link := l;
     Postgres.clock := "2023-11-15T08:00:00.000Z"; Postgres.uuids := 8 |}.

Definition memory_state : PatientService.State Postgres.t :=
  {| PatientService.memoryPatients := [(Patient.id alice, alice)];
     PatientService.database := database None |}.

Definition database_state (l : option PostgrestError) : PatientService.State Postgres.t :=
  {| PatientService.memoryPatients := [];
     PatientService.database := database l |}.

(** The bytes of a staged upload, the disk that holds it, and a bucket. *)
Definition scan_bytes : list byte := [x89; x50; x4e; x47].

Definition uploads : string := "/srv/backend/uploads".

Definition scan : MulterFile.t :=
  {| MulterFile.filename := "scan.png"; MulterFile.size := 4 |}.

Definition rejected : StorageError := {| st_message := "Bucket not found" |}.

Definition bucket (o : option StorageError) : Bucket.t :=
  {| Bucket.objects := {[ ("oral_images", "scan.png") := (scan_bytes, "image/png") ]};
     Bucket.outage := o;
     Bucket.endpoint := "https://medapp.supabase.co" |}.

Definition upload_state (o : option StorageError) : UploadService.State Bucket.t :=
  {| UploadService.disk := {[ "/srv/backend/uploads/scan.png" := scan_bytes ]};
     UploadService.storage := bucket o;
     UploadService.console := [] |}.

(** A diagnosis whose confidence is 1.00004, and an empty table. *)
Definition diagnosis : DiagnosisInsert.t :=
  {| DiagnosisInsert.patient_id := "patient-1700000000123";
     DiagnosisInsert.type := oral;
     DiagnosisInsert.image_url :=
       "https://medapp.supabase.co/storage/v1/object/public/oral_images/scan.png";
     DiagnosisInsert.confidence := (100004 # 100000)%Q;
     DiagnosisInsert.finding := "lesion";
     DiagnosisInsert.recommendation := "biopsy";
     DiagnosisInsert.severity := Some high;
     DiagnosisInsert.report_recommendation := None;
     DiagnosisInsert.status_code := Some "OPMD_POSITIVE";
     DiagnosisInsert.olp_score := Some (1 # 4)%Q;
     DiagnosisInsert.olk_score := None;
     DiagnosisInsert.ooml_score := None;
     DiagnosisInsert.opmd_score := Some (9 # 10)%Q;
     DiagnosisInsert.knowledge := None;
     DiagnosisInsert.annotated_image_url := None;
     DiagnosisInsert.detections := None |}.


Definition no_diagnoses : Diagnoses.t :=
  {| Diagnoses.rows := []; Diagnoses.clock := "2023-11-15T08:00:00.000Z";
     Diagnoses.uuids := 1 |}.

(** Database mode without the URL of the database. *)
Definition unconfigured_env : Env :=
  {| NO_DB := None; SUPABASE_URL := None; SUPABASE_ANON_KEY := Some "anon-key" |}.


(** The diagnosis with the confidence 0.87, and an update to the confidence 0.5. *)
Definition sound_diagnosis : DiagnosisInsert.t :=
  {| DiagnosisInsert.patient_id := DiagnosisInsert.patient_id diagnosis;
     DiagnosisInsert.type := DiagnosisInsert.type diagnosis;
     DiagnosisInsert.image_url := DiagnosisInsert.image_url diagnosis;
     DiagnosisInsert.confidence := (87 # 100)%Q;
     DiagnosisInsert.finding := DiagnosisInsert.finding diagnosis;
     DiagnosisInsert.recommendation := DiagnosisInsert.recommendation diagnosis;
     DiagnosisInsert.severity := DiagnosisInsert.severity diagnosis;
     DiagnosisInsert.report_recommendation := DiagnosisInsert.report_recommendation diagnosis;
     DiagnosisInsert.status_code := DiagnosisInsert.status_code diagnosis;
     DiagnosisInsert.olp_score := DiagnosisInsert.olp_score diagnosis;
     DiagnosisInsert.olk_score := DiagnosisInsert.olk_score diagnosis;
     DiagnosisInsert.ooml_score := DiagnosisInsert.ooml_score diagnosis;
     DiagnosisInsert.opmd_score := DiagnosisInsert.opmd_score diagnosis;
     DiagnosisInsert.knowledge := DiagnosisInsert.knowledge diagnosis;
     DiagnosisInsert.annotated_image_url := DiagnosisInsert.annotated_image_url diagnosis;
     DiagnosisInsert.detections := DiagnosisInsert.detections diagnosis |}.


(** The table after the insertion of [sound_diagnosis], a day later. *)
Definition one_diagnosis : Diagnoses.t :=
  match Diagnoses.insert sound_diagnosis no_diagnoses with
  | inr db => Diagnoses.tick "2023-11-16T08:00:00.000Z" db
  | inl _ => no_diagnoses
  end.

End Sample.

(** * Properties *)

(** ** The model at work *)

Example sort_latest_first_is_stable :
  Patient.name <$> PatientService.sort_latest_first
    [Sample.alice; PatientService.new_patient 1700000000123 0 1700000000123 0
                     Sample.request_bob;
     PatientService.new_patient 1800000000000 0 1800000000000 0 Sample.request_bob]
  = ["Bob"; "Alice"; "Bob"].
Proof. reflexivity. Qed.

Example new_patient_of_bob :
  PatientService.new_patient 1700000000123 1700000000123 1700000000124 1700000000124
    Sample.request_bob
  = {| Patient.id := "patient-1700000000123"; Patient.name := "Bob";
       Patient.history := "diabetes, smoker"; Patient.date := "2023-11-14";
       Patient.index := "1700000000123"; Patient.biopsyConfirmed := Some false;
       Patient.doctor := Some "Unknown"; Patient.createdAt := 1700000000124;
       Patient.updatedAt := 1700000000124 |}.
Proof. vm_compute. reflexivity. Qed.

Example data_url_jpeg :
  UploadService.match_data_url "data:image/jpeg;base64,aGk=" = Some ("jpeg", "aGk=").
Proof. reflexivity. Qed.

Example data_url_kind_of_letters_only :
  UploadService.match_data_url "data:image/svg+xml;base64,aGk=" = None.
Proof. reflexivity. Qed.

Example data_url_payload_on_one_line :
  UploadService.match_data_url ("data:image/png;base64,aG" +:+ String "010" "k=") = None.
Proof. reflexivity. Qed.

Example base64_of_hi : Reference.from_base64 "aGk=" = [x68; x69].
Proof. reflexivity. Qed.

Example rounding_to_four_places :
  Diagnoses.round_scale4 (100004 # 100000) = 10000
  ∧ Diagnoses.round_scale4 (100005 # 100000) = 10001
  ∧ Diagnoses.round_scale4 (-5 # 100000) = -1
  ∧ Diagnoses.decimal_5_4 (25 # 2) = None.
Proof. repeat split. Qed.

Example varchar_of_names :
  Sql.varchar 255 "Alice B." = Some "Alice B."
  ∧ Sql.varchar 255 Sample.long_name = None
  ∧ Sql.varchar 3 "Bob  " = Some "Bob"
  ∧ Sql.varchar 3 "Ångström" = None
  ∧ Sql.varchar 3 "Åbo" = Some "Åbo".
Proof. vm_compute. by split_and!. Qed.

Example name_too_long_for_its_column :
  PatientService.createPatient (H := Reference.dates) Sample.database_env 1700000000999
    1700000000999 1700000001000 1700000001000
    {| CreatePatientRequest.name := Sample.long_name;
       CreatePatientRequest.medicalHistory := None |} (Sample.database_state None)
  = (Throw (ClientError (Postgres.value_too_long 255)), Sample.database_state None)
  ∧ PatientService.updatePatient (H := Reference.dates) Sample.database_env 1700000999999
      {| UpdatePatientRequest.id := "patient-1700000000123";
         UpdatePatientRequest.name := Some Sample.long_name;
         UpdatePatientRequest.medicalHistory := None |} (Sample.database_state None)
    = (Throw PatientService.not_found, Sample.database_state None).
Proof. vm_compute. by split. Qed.

Example update_without_columns :
  PatientService.updatePatient (H := Reference.dates) Sample.database_env 1700000999999
    {| UpdatePatientRequest.id := "patient-1700000000123";
       UpdatePatientRequest.name := Some "";
       UpdatePatientRequest.medicalHistory := None |} (Sample.database_state None)
  = (Throw PatientService.not_found, Sample.database_state None).
Proof. vm_compute. reflexivity. Qed.

Example deleteImage_of_a_missing_file :
  UploadService.deleteImage (H := Reference.node) Sample.database_env Sample.uploads
    "absent.png" (Sample.upload_state None)
  = (Return tt, Sample.upload_state None).
Proof. vm_compute. reflexivity. Qed.

(** ** [Map] lookups after [set] and [delete] *)

Section JsMapFacts.
Context {V : Type}.
Implicit Types (k : string) (v : V) (m : JsMap.t V).

Lemma JsMap_get_set_eq k v m : JsMap.get k (JsMap.set k v m) = Some v.
Proof.
  induction m as [|[k' v'] m IH]; simpl.
  - by rewrite decide_True.
  - destruct (decide (k' = k)) as [->|Hne]; simpl.
    + by rewrite decide_True.
    + by rewrite decide_False.
Qed.

Lemma JsMap_get_set_ne k k' v m : k ≠ k' → JsMap.get k' (JsMap.set k v m) = JsMap.get k' m.
Proof.
  intros Hne. induction m as [|[k0 v0] m IH]; simpl.
  - by rewrite decide_False.
  - destruct (decide (k0 = k)) as [->|Hk]; simpl.
    + by rewrite !decide_False.
    + by rewrite IH.
Qed.

Lemma JsMap_remove_absent k m : JsMap.get k m = None → JsMap.remove k m = m.
Proof.
  induction m as [|[k' v'] m IH]; simpl; [done|].
  destruct (decide (k' = k)); [done|]. intros Hm. by rewrite IH.
Qed.

Lemma JsMap_set_present_length k v m :
  is_Some (JsMap.get k m) → length (JsMap.set k v m) = length m.
Proof.
  induction m as [|[k' v'] m IH]; simpl.
  - by intros [? ?].
  - destruct (decide (k' = k)); simpl; [done|]. intros Hm. by rewrite IH.
Qed.

Lemma JsMap_delete_absent k m :
  JsMap.get k m = None → JsMap.delete k m = (false, m).
Proof.
  intros Hm. unfold JsMap.delete. rewrite JsMap_remove_absent by done.
  rewrite Hm. rewrite bool_decide_false; [done|]. by intros [? ?].
Qed.

End JsMapFacts.

(** ** Row conversions *)

Section ConversionFacts.
Context `{DateApi}.

(** C10.  [fromDbFormat] after [toDbFormat] (through the row the table stores)
    and [toDbFormat] after [fromDbFormat] give back the identifier, the name,
    the history, the date and the index.  They do not give back the optional
    fields: a patient whose [biopsyConfirmed] is [false] is stored with
    [biopsy_confirmed] null, a null [biopsy_confirmed] or [doctor] is read
    back as undefined, and so the round trip of such a patient yields
    [biopsyConfirmed] undefined and not [false]. *)
Theorem conversions_inverse_except_optional :
  (∀ (p : Patient.t) (db : Postgres.t),
     let p' := fromDbFormat (Postgres.new_row db (toDbFormat p)) in
     Patient.id p' = Patient.id p ∧ Patient.name p' = Patient.name p
     ∧ Patient.history p' = Patient.history p ∧ Patient.date p' = Patient.date p
     ∧ Patient.index p' = Patient.index p)
  ∧ (∀ r : PatientRow.t,
       let i := toDbFormat (fromDbFormat r) in
       PatientInsert.patient_id i = PatientRow.patient_id r
       ∧ PatientInsert.name i = PatientRow.name r
       ∧ PatientInsert.history i = PatientRow.history r
       ∧ PatientInsert.date i = PatientRow.date r
       ∧ PatientInsert.index i = PatientRow.index r)
  ∧ (∀ (p : Patient.t) (db : Postgres.t),
       Patient.biopsyConfirmed p = Some false →
       PatientInsert.biopsy_confirmed (toDbFormat p) = None
       ∧ Patient.biopsyConfirmed (fromDbFormat (Postgres.new_row db (toDbFormat p))) = None
       ∧ Patient.biopsyConfirmed (fromDbFormat (Postgres.new_row db (toDbFormat p)))
         ≠ Patient.biopsyConfirmed p)
  ∧ (∀ r : PatientRow.t,
       PatientRow.biopsy_confirmed r = None → Patient.biopsyConfirmed (fromDbFormat r) = None)
  ∧ (∀ r : PatientRow.t,
       PatientRow.doctor r = None → Patient.doctor (fromDbFormat r) = None).
Proof.
  split; [|split; [|split; [|split]]].
  - intros p db. simpl. done.
  - intros r. simpl. done.
  - intros p db Hb. simpl. rewrite Hb. simpl. repeat split; discriminate.
  - intros r Hb. simpl. by rewrite Hb.
  - intros r Hd. simpl. by rewrite Hd.
Qed.

End ConversionFacts.

Lemma conversions_inverse_except_optional_witness :
  Patient.biopsyConfirmed Sample.alice = Some false
  ∧ PatientInsert.biopsy_confirmed (toDbFormat Sample.alice) = None
  ∧ Patient.biopsyConfirmed
      (fromDbFormat (Postgres.new_row (Sample.database None) (toDbFormat Sample.alice))) = None.
Proof.
  split; [reflexivity|].
  destruct (conversions_inverse_except_optional (H := Reference.dates))
    as (_ & _ & Hfalse & _).
  destruct (Hfalse Sample.alice (Sample.database None) eq_refl) as (Hnull & Hback & _).
  split; [exact Hnull | exact Hback].
Defined.

(** ** The [patients] table *)

Lemma where_patient_id_new_row (db : Postgres.t) (ins : PatientInsert.t) :
  Postgres.where_patient_id (PatientInsert.patient_id ins) (Postgres.patients db) = [] →
  Postgres.where_patient_id (PatientInsert.patient_id ins)
    (Postgres.patients db ++ [Postgres.new_row db ins]) = [Postgres.new_row db ins].
Proof.
  intros Hnone. unfold Postgres.where_patient_id in *.
  rewrite List.filter_app, Hnone. simpl.
  unfold Postgres.matches. simpl. by rewrite bool_decide_true.
Qed.

Lemma with_database_id {DB} (s : PatientService.State DB) :
  PatientService.with_database (PatientService.database s) s = s.
Proof. by destruct s. Qed.

Lemma with_memory_id {DB} (s : PatientService.State DB) :
  PatientService.with_memory (PatientService.memoryPatients s) s = s.
Proof. by destruct s. Qed.

(** ** Patient service *)

Section PatientServiceFacts.
Context `{DateApi}.
Import PatientService.

(** C9.  Without a database, [createPatient] names the patient
    [patient-<now>] and gives it the index [<now>], for [now] the value of
    [Date.now()], and stores it in [memoryPatients] under that identifier.
    Nothing guards against a collision: a second creation with the same
    [now] returns a patient with the same identifier, after which the map
    holds the second patient under it, has as many entries as after the
    first creation, and is unchanged at every other key. *)
Theorem createPatient_memory_timestamp_id {DB : Type} `{PatientsClient DB} :
  ∀ (env : Env) (now t1 t2 t3 t1' t2' t3' : Z) (req req' : CreatePatientRequest.t)
    (s : State DB),
    isNoDB env = true →
    ∃ p1 p2 : Patient.t,
      let s1 := with_memory (JsMap.set (Patient.id p1) p1 (memoryPatients s)) s in
      let s2 := with_memory (JsMap.set (Patient.id p2) p2 (memoryPatients s1)) s1 in
      createPatient env now t1 t2 t3 req s = (Return p1, s1)
      ∧ createPatient env now t1' t2' t3' req' s1 = (Return p2, s2)
      ∧ Patient.id p1 = "patient-" +:+ pretty now
      ∧ Patient.index p1 = pretty now
      ∧ Patient.id p2 = Patient.id p1
      ∧ JsMap.get (Patient.id p1) (memoryPatients s1) = Some p1
      ∧ JsMap.get (Patient.id p1) (memoryPatients s2) = Some p2
      ∧ length (memoryPatients s2) = length (memoryPatients s1)
      ∧ (∀ k, k ≠ Patient.id p1 →
           JsMap.get k (memoryPatients s2) = JsMap.get k (memoryPatients s)).
Proof.
  intros env now t1 t2 t3 t1' t2' t3' req req' s Hmem.
  unfold createPatient. rewrite Hmem. lazy beta iota zeta.
  eexists _, _. split; [reflexivity|]. split; [reflexivity|]. simpl.
  split; [reflexivity|]. split; [reflexivity|]. split; [reflexivity|].
  split; [apply JsMap_get_set_eq|]. split; [apply JsMap_get_set_eq|].
  split.
  - apply JsMap_set_present_length. rewrite JsMap_get_set_eq. by eexists.
  - intros k Hk. rewrite !JsMap_get_set_ne by done. done.
Qed.

(** C4.  Deleting an identifier that is not stored throws the not-found
    error, whose status is 404, and leaves the state as it was: in memory
    mode when the map has no entry for it, and in database mode (the client
    configured) when no row of the table has that [patient_id], whether
    or not the request reaches the table. *)
Theorem deletePatient_absent_not_found :
  (∀ {DB : Type} `{PatientsClient DB} (env : Env) (id : string) (s : State DB),
     isNoDB env = true →
     JsMap.get id (memoryPatients s) = None →
     deletePatient env id s = (Throw not_found, s))
  ∧ (∀ (env : Env) (id : string) (s : State Postgres.t),
       isNoDB env = false →
       getSupabase env = Return tt →
       Postgres.where_patient_id id (Postgres.patients (database s)) = [] →
       deletePatient env id s = (Throw not_found, s))
  ∧ status_of not_found = Some 404.
Proof.
  split; [|split; [|reflexivity]].
  - intros DB ? env id s Hmem Hnone. unfold deletePatient. rewrite Hmem.
    rewrite JsMap_delete_absent by done. by rewrite with_memory_id.
  - intros env id s Hdb Hcfg Hnone. unfold deletePatient. rewrite Hdb, Hcfg.
    simpl. unfold Postgres.delete, Postgres.request. rewrite Hnone.
    destruct (Postgres.link (database s)); simpl; by rewrite with_database_id.
Qed.

(** C2.  A patient returned by [createPatient] is returned again, field for
    field, by [getPatientById] on its identifier.  In memory mode
    [createPatient] always returns; in database mode the statement is about
    the creations that return (the insertion can be refused). *)
Theorem createPatient_then_getPatientById :
  (∀ {DB : Type} `{PatientsClient DB} (env : Env) (now t1 t2 t3 : Z)
     (req : CreatePatientRequest.t) (s : State DB),
     isNoDB env = true →
     ∃ (p : Patient.t) (s' : State DB),
       createPatient env now t1 t2 t3 req s = (Return p, s')
       ∧ getPatientById env (Patient.id p) s' = (Return p, s'))
  ∧ (∀ (env : Env) (now t1 t2 t3 : Z) (req : CreatePatientRequest.t)
       (s s' : State Postgres.t) (p : Patient.t),
       isNoDB env = false →
       createPatient env now t1 t2 t3 req s = (Return p, s') →
       getPatientById env (Patient.id p) s' = (Return p, s')).
Proof.
  split.
  - intros DB ? env now t1 t2 t3 req s Hmem.
    unfold createPatient, getPatientById. rewrite Hmem. simpl.
    eexists _, _. split; [reflexivity|]. simpl.
    by rewrite JsMap_get_set_eq.
  - intros env now t1 t2 t3 req s s' p Hdb.
    unfold createPatient, getPatientById. rewrite Hdb.
    destruct (getSupabase env) as [[]|e]; [|discriminate].
    simpl. unfold Postgres.insert, Postgres.select_one, Postgres.request.
    destruct (Postgres.link (database s)) eqn:Hlink; simpl; [discriminate|].
    destruct (Postgres.typed_insert _) as [refused|typed]; simpl; [discriminate|].
    match goal with
    | |- context [Postgres.where_patient_id ?pid (Postgres.patients (database s))] =>
        destruct (Postgres.where_patient_id pid (Postgres.patients (database s))) eqn:Hnone
    end; simpl; [|discriminate].
    intros [= <- <-]. simpl.
    match goal with
    | |- context [Postgres.new_row ?db ?ins] =>
        pose proof (where_patient_id_new_row db ins Hnone) as Hone
    end.
    simpl in Hone. rewrite Hone. reflexivity.
Qed.

End PatientServiceFacts.

Lemma createPatient_memory_timestamp_id_witness :
  isNoDB Sample.memory_env = true
  ∧ ∃ p1 p2 : Patient.t,
      Patient.id p1 = "patient-1700000000123" ∧ Patient.id p2 = Patient.id p1
      ∧ fst (PatientService.createPatient Sample.memory_env 1700000000123 1700000000123
               1700000000124 1700000000124 Sample.request_bob Sample.memory_state)
        = Return p1.
Proof.
  split; [reflexivity|].
  destruct (createPatient_memory_timestamp_id (H := Reference.dates)
              Sample.memory_env 1700000000123 1700000000123 1700000000124 1700000000124
              1700000000125 1700000000126 1700000000126
              Sample.request_bob Sample.request_bob Sample.memory_state eq_refl)
    as (p1 & p2 & Hfirst & _ & Hid & _ & Hsame & _).
  exists p1, p2. split; [exact Hid|]. split; [exact Hsame|].
  cbv zeta in Hfirst. rewrite Hfirst. reflexivity.
Defined.

Lemma deletePatient_absent_not_found_witness :
  PatientService.deletePatient Sample.memory_env "patient-0" Sample.memory_state
    = (Throw PatientService.not_found, Sample.memory_state)
  ∧ PatientService.deletePatient Sample.database_env "patient-0"
      (Sample.database_state (Some Sample.fetch_failed))
    = (Throw PatientService.not_found, Sample.database_state (Some Sample.fetch_failed)).
Proof.
  destruct deletePatient_absent_not_found as (Hmem & Hdb & _).
  split.
  - apply Hmem; reflexivity.
  - apply Hdb; reflexivity.
Defined.

Lemma createPatient_then_getPatientById_witness :
  ∃ (p : Patient.t) (s' : PatientService.State Postgres.t),
    PatientService.createPatient Sample.database_env 1700000000999 1700000000999
      1700000001000 1700000001000 Sample.request_bob (Sample.database_state None)
      = (Return p, s')
    ∧ PatientService.getPatientById Sample.database_env (Patient.id p) s' = (Return p, s').
Proof.
  eexists _, _. split; [vm_compute; reflexivity|].
  destruct (createPatient_then_getPatientById (H := Reference.dates)) as (_ & Hdb).
  apply (Hdb Sample.database_env 1700000000999 1700000000999 1700000001000 1700000001000
           Sample.request_bob (Sample.database_state None)); [reflexivity|].
  vm_compute. reflexivity.
Defined.

Lemma where_patient_id_single (pid : string) (rows : list PatientRow.t) (r : PatientRow.t) :
  Postgres.where_patient_id pid rows = [r] → PatientRow.patient_id r = pid.
Proof.
  intros Hone.
  assert (List.In r (Postgres.where_patient_id pid rows)) as Hin
    by (rewrite Hone; left; reflexivity).
  apply List.filter_In in Hin as [_ Hm].
  by apply bool_decide_eq_true in Hm.
Qed.

(** ** Strings and their columns *)








Section UpdateFacts.
Context `{DateApi}.
Import PatientService.



End UpdateFacts.



Section ErrorFacts.
Context `{DateApi} {DB : Type} `{PatientsClient DB}.
Import PatientService.

(** C1 (amended).  In database mode, with the client configured,
    [getPatientById], [updatePatient] and [deletePatient] throw the not-found
    error, of status 404, whenever the response of the client carries an
    error (of any kind) or no data; [getAllPatients] and [createPatient]
    throw the error of the client as it is. *)
Theorem database_errors_by_operation :
  ∀ (env : Env) (s : State DB),
    isNoDB env = false →
    getSupabase env = Return tt →
    (∀ id, failed_or_empty (snd (select_eq_single id (database s))) →
           fst (getPatientById env id s) = Throw not_found)
    ∧ (∀ t u,
         failed_or_empty
           (snd (update_eq_select_single (update_payload u) (UpdatePatientRequest.id u)
                   (database s))) →
         fst (updatePatient env t u s) = Throw not_found)
    ∧ (∀ id, failed_or_empty (snd (delete_eq_select_single id (database s))) →
             fst (deletePatient env id s) = Throw not_found)
    ∧ (∀ e, error (snd (select_order_created_desc (database s))) = Some e →
            fst (getAllPatients env s) = Throw (ClientError e))
    ∧ (∀ now t1 t2 t3 req e,
         error (snd (insert_select_single (toDbFormat (new_patient now t1 t2 t3 req))
                       (database s))) = Some e →
         fst (createPatient env now t1 t2 t3 req s) = Throw (ClientError e))
    ∧ status_of not_found = Some 404.
Proof.
  intros env s Hdb Hcfg.
  split; [|split; [|split; [|split; [|split; [|reflexivity]]]]].
  - intros id Hr. unfold getPatientById. rewrite Hdb, Hcfg.
    destruct (select_eq_single id (database s)) as [db r]. simpl in *.
    destruct Hr as [He|Hd].
    + destruct (error r); [reflexivity | congruence].
    + rewrite Hd. by destruct (error r).
  - intros t u Hr. unfold updatePatient. rewrite Hdb, Hcfg. lazy zeta.
    destruct (update_eq_select_single _ _ (database s)) as [db r]. simpl in *.
    destruct Hr as [He|Hd].
    + destruct (error r); [reflexivity | congruence].
    + rewrite Hd. by destruct (error r).
  - intros id Hr. unfold deletePatient. rewrite Hdb, Hcfg.
    destruct (delete_eq_select_single id (database s)) as [db r]. simpl in *.
    destruct Hr as [He|Hd].
    + destruct (error r); [reflexivity | congruence].
    + rewrite Hd. by destruct (error r).
  - intros e He. unfold getAllPatients. rewrite Hdb, Hcfg.
    destruct (select_order_created_desc (database s)) as [db r]. simpl in *.
    by rewrite He.
  - intros now t1 t2 t3 req e He. unfold createPatient. rewrite Hdb, Hcfg. lazy zeta.
    destruct (insert_select_single _ (database s)) as [db r]. simpl in *.
    by rewrite He.
Qed.

End ErrorFacts.

(** C1 as stated fails: the transport to the database is down, the client
    reports that failure, and [getPatientById] throws the not-found error
    for a patient that the table holds. *)
Lemma getPatientById_masks_client_error :
  error (snd (select_eq_single "patient-1700000000123"
                (Sample.database (Some Sample.fetch_failed)))) = Some Sample.fetch_failed
  ∧ fst (PatientService.getPatientById Sample.database_env "patient-1700000000123"
           (Sample.database_state (Some Sample.fetch_failed)))
    = Throw (HttpError "Patient not found" 404)
  ∧ fst (PatientService.getPatientById Sample.database_env "patient-1700000000123"
           (Sample.database_state (Some Sample.fetch_failed)))
    ≠ Throw (ClientError Sample.fetch_failed).
Proof.
  split; [reflexivity|]. split; [reflexivity|]. discriminate.
Qed.

Lemma database_errors_by_operation_witness :
  isNoDB Sample.database_env = false
  ∧ getSupabase Sample.database_env = Return tt
  ∧ fst (PatientService.deletePatient Sample.database_env "patient-1700000000123"
           (Sample.database_state (Some Sample.fetch_failed)))
    = Throw PatientService.not_found
  ∧ fst (PatientService.getAllPatients Sample.database_env
           (Sample.database_state (Some Sample.fetch_failed)))
    = Throw (ClientError Sample.fetch_failed).
Proof.
  split; [reflexivity|]. split; [reflexivity|].
  destruct (database_errors_by_operation (H := Reference.dates) Sample.database_env
              (Sample.database_state (Some Sample.fetch_failed)) eq_refl eq_refl)
    as (_ & _ & Hdel & Hall & _).
  split.
  - apply Hdel. left. discriminate.
  - apply Hall. reflexivity.
Defined.

(** ** Upload service *)

Section UploadFacts.
Context `{NodeApi} {B : Type} `{StorageClient B}.
Import UploadService.

(** C6 (amended).  After [deleteImage], whatever it returns, the disk is the
    disk before without the file at the uploads path of the file name, so no
    local copy remains.  With the client available and an uploads path that
    holds a regular file or is no directory, [deleteImage] asks the storage
    to remove the object of that name and returns normally whether the
    storage reports an error or not; an error is printed as a warning and
    not thrown.  When the uploads path is a directory, [deleteImage] throws
    [Failed to delete image] and the storage is not contacted: so it is for
    a file name that [path.join] takes to the uploads directory itself. *)
Theorem deleteImage_tolerates_storage_failure :
  ∀ (env : Env) (dir filename : string) (s : State B),
    disk (snd (deleteImage env dir filename s)) = delete (path_join dir filename) (disk s)
    ∧ disk (snd (deleteImage env dir filename s)) !! path_join dir filename = None
    ∧ (getSupabase env = Return tt →
       is_Some (disk s !! path_join dir filename)
       ∨ is_directory dir (path_join dir filename) = false →
       deleteImage env dir filename s
       = (Return tt,
          {| disk := delete (path_join dir filename) (disk s);
             storage := fst (storage_remove BUCKET_NAME [filename] (storage s));
             console :=
               console s
               ++ delete_warning (snd (storage_remove BUCKET_NAME [filename] (storage s))) |}))
    ∧ (disk s !! path_join dir filename = None →
       is_directory dir (path_join dir filename) = true →
       deleteImage env dir filename s
       = (Throw (Error "Failed to delete image"),
          {| disk := disk s;
             storage := storage s;
             console :=
               console s
               ++ [{| level := LogError; label := "Delete image error:";
                      detail := "EISDIR: illegal operation on a directory, unlink '"
                                +:+ path_join dir filename +:+ "'" |}] |}))
    ∧ (disk s !! dir = None →
       path_join dir filename = dir →
       fst (deleteImage env dir filename s) = Throw (Error "Failed to delete image")
       ∧ storage (snd (deleteImage env dir filename s)) = storage s).
Proof.
  intros env dir filename s.
  assert (∀ o, deleteImage env dir filename s = o →
               disk (snd o) = delete (path_join dir filename) (disk s)
               ∧ (getSupabase env = Return tt →
                  is_Some (disk s !! path_join dir filename)
                  ∨ is_directory dir (path_join dir filename) = false →
                  o = (Return tt,
                       {| disk := delete (path_join dir filename) (disk s);
                          storage := fst (storage_remove BUCKET_NAME [filename] (storage s));
                          console :=
                            console s
                            ++ delete_warning
                                 (snd (storage_remove BUCKET_NAME [filename] (storage s))) |}))
               ∧ (disk s !! path_join dir filename = None →
                  is_directory dir (path_join dir filename) = true →
                  o = (Throw (Error "Failed to delete image"),
                       {| disk := disk s;
                          storage := storage s;
                          console :=
                            console s
                            ++ [{| level := LogError; label := "Delete image error:";
                                   detail :=
                                     "EISDIR: illegal operation on a directory, unlink '"
                                     +:+ path_join dir filename +:+ "'" |}] |})))
    as Hrun.
  { intros o <-. unfold deleteImage, Run.try_catch, Run.bind, existsSync, unlinkSync,
      Run.gets, Run.ret, Run.lift, request, console_log, Run.modify, Run.throw.
    cbn beta iota zeta.
    destruct (disk s !! path_join dir filename) as [bytes|] eqn:Hfile.
    - rewrite bool_decide_true by (by eexists). cbn [orb]. rewrite Hfile.
      destruct (getSupabase env) as [[]|e]; simpl.
      + destruct (storage_remove BUCKET_NAME [filename] (storage s)) as [b [e|]]; simpl;
          (split; [reflexivity|]); (split; [|discriminate]); intros _ _; [reflexivity|].
        by rewrite app_nil_r.
      + split; [reflexivity|]. split; discriminate.
    - rewrite bool_decide_false by (by intros [? ?]). cbn [orb].
      rewrite (delete_id _ _ Hfile).
      destruct (is_directory dir (path_join dir filename)) eqn:Hdir.
      + rewrite Hfile. simpl. split; [reflexivity|]. split.
        * intros _ [[? ?]|?]; discriminate.
        * reflexivity.
      + destruct (getSupabase env) as [[]|e]; simpl.
        * destruct (storage_remove BUCKET_NAME [filename] (storage s)) as [b [e|]]; simpl;
            (split; [reflexivity|]); (split; [|discriminate]); intros _ _; [reflexivity|].
          by rewrite app_nil_r.
        * split; [reflexivity|]. split; discriminate. }
  destruct (Hrun _ eq_refl) as (Hdisk & Hok & Hthrow).
  split; [exact Hdisk|]. split; [rewrite Hdisk; apply lookup_delete_eq|].
  split; [exact Hok|]. split; [exact Hthrow|].
  intros Hnone Hpath.
  rewrite Hthrow.
  - by split.
  - by rewrite Hpath.
  - rewrite Hpath. unfold is_directory. by rewrite bool_decide_true.
Qed.

(** C7.  For a file staged at the uploads path, with the client available
    and the storage accepting the upload, [processImage] sends the bytes of
    the staged file to the bucket under the file's own name and returns the
    file's name, the public URL of the object, the uploads path and the
    file's size; the disk is left as it was. *)
Theorem processImage_uploads_staged_file :
  ∀ (env : Env) (dir : string) (file : MulterFile.t) (s : State B) (bytes : list byte),
    getSupabase env = Return tt →
    disk s !! path_join dir (MulterFile.filename file) = Some bytes →
    snd (storage_upload BUCKET_NAME (MulterFile.filename file) bytes
           (getContentType (MulterFile.filename file)) true (storage s)) = None →
    processImage env dir file s
    = (Return
         {| ProcessedImageResult.filename := MulterFile.filename file;
            ProcessedImageResult.imageUrl :=
              storage_public_url BUCKET_NAME (MulterFile.filename file)
                (fst (storage_upload BUCKET_NAME (MulterFile.filename file) bytes
                        (getContentType (MulterFile.filename file)) true (storage s)));
            ProcessedImageResult.filePath := path_join dir (MulterFile.filename file);
            ProcessedImageResult.size := MulterFile.size file |},
       {| disk := disk s;
          storage :=
            fst (storage_upload BUCKET_NAME (MulterFile.filename file) bytes
                   (getContentType (MulterFile.filename file)) true (storage s));
          console := console s |}).
Proof.
  intros env dir file s bytes Hcfg Hfile Hok.
  unfold processImage, Run.try_catch, Run.bind, readFileSync, uploadToSupabase,
    Run.bind, Run.lift, request, Run.gets, Run.ret.
  rewrite Hfile, Hcfg. simpl.
  destruct (storage_upload BUCKET_NAME (MulterFile.filename file) bytes
              (getContentType (MulterFile.filename file)) true (storage s)) as [b err].
  simpl in *. subst err. reflexivity.
Qed.

End UploadFacts.

(** *** The data-URL pattern *)

Lemma strip_prefix_app (p s : string) : UploadService.strip_prefix p (p +:+ s) = Some s.
Proof.
  induction p as [|a p IH]; simpl.
  - by destruct s.
  - by rewrite Ascii.eqb_refl.
Qed.

Lemma strip_prefix_Some (p s r : string) :
  UploadService.strip_prefix p s = Some r → s = p +:+ r.
Proof.
  revert s. induction p as [|a p IH]; intros s; simpl.
  - destruct s; by intros [= <-].
  - destruct s as [|b s]; [discriminate|].
    destruct (Ascii.eqb a b) eqn:Hab; [|discriminate].
    apply Ascii.eqb_eq in Hab as ->. intros Hp. by rewrite (IH _ Hp).
Qed.

Lemma span_letters_sound (s run tail : string) :
  UploadService.span_letters s = (run, tail) →
  s = run +:+ tail ∧ all_letters run = true.
Proof.
  revert run tail. induction s as [|c s IH]; intros run tail; simpl.
  - by intros [= <- <-].
  - destruct (UploadService.is_letter c) eqn:Hc.
    + destruct (UploadService.span_letters s) as [run' tail'].
      intros [= <- <-]. destruct (IH _ _ eq_refl) as [-> Hrun].
      simpl. by rewrite Hc, Hrun.
    + by intros [= <- <-].
Qed.

Lemma span_letters_app (kind tail : string) (c : ascii) :
  all_letters kind = true →
  UploadService.is_letter c = false →
  UploadService.span_letters (kind +:+ String c tail) = (kind, String c tail).
Proof.
  intros Hkind Hc. induction kind as [|a kind IH]; simpl in *.
  - by rewrite Hc.
  - apply andb_true_iff in Hkind as [Ha Hkind]. by rewrite Ha, (IH Hkind).
Qed.

(** The matcher accepts exactly the strings of the pattern. *)
Lemma match_data_url_spec (s kind payload : string) :
  UploadService.match_data_url s = Some (kind, payload) ↔ is_data_url s kind payload.
Proof.
  unfold UploadService.match_data_url, is_data_url. split.
  - destruct (UploadService.strip_prefix "data:image/" s) as [rest|] eqn:Hhead;
      [|discriminate].
    destruct (UploadService.span_letters rest) as [run tail] eqn:Hspan.
    destruct (String.eqb run "") eqn:Hrun; [discriminate|].
    destruct (UploadService.strip_prefix ";base64," tail) as [pl|] eqn:Htail;
      [|discriminate].
    destruct (String.eqb pl "" || UploadService.has_line_terminator pl) eqn:Hpl;
      [discriminate|].
    intros [= <- <-].
    apply orb_false_elim in Hpl as [Hne Hlt].
    apply strip_prefix_Some in Hhead, Htail.
    apply span_letters_sound in Hspan as [Hrest Hletters].
    apply String.eqb_neq in Hrun, Hne. subst. done.
  - intros (-> & Hkind & Hletters & Hpl & Hlt).
    rewrite strip_prefix_app.
    change (";base64," +:+ payload) with (String ";" ("base64," +:+ payload)).
    rewrite (span_letters_app kind ("base64," +:+ payload) ";" Hletters eq_refl).
    apply String.eqb_neq in Hkind, Hpl. rewrite Hkind.
    change (String ";" ("base64," +:+ payload)) with (";base64," +:+ payload).
    rewrite strip_prefix_app, Hpl, Hlt. reflexivity.
Qed.

Lemma match_data_url_None (s : string) :
  (∀ kind payload, ¬ is_data_url s kind payload) → UploadService.match_data_url s = None.
Proof.
  intros Hno. destruct (UploadService.match_data_url s) as [[kind payload]|] eqn:Hm;
    [|reflexivity].
  apply match_data_url_spec in Hm. by destruct (Hno kind payload).
Qed.

Section Base64Facts.
Context `{NodeApi} {B : Type} `{StorageClient B}.
Import UploadService.

(** C8.  [saveBase64Image] throws for every string that the data-URL pattern
    does not match, and then leaves the disk and the storage alone.  For a
    string that matches, with image kind [kind] and payload [payload], it
    decodes the payload and writes the decoded bytes to the uploads path of
    the generated name [seg_<now>_<suffix>.<ext>], where [ext] is [kind] with
    [jpeg] turned into [jpg]; with the client available it sends the same
    bytes to the bucket under that name; and when the storage accepts them it
    returns that name, the public URL, the path and, as size, the number of
    decoded bytes. *)
Theorem saveBase64Image_by_pattern :
  ∀ (env : Env) (dir : string) (now : Z) (suffix base64Data : string) (s : State B),
    ((∀ kind payload, ¬ is_data_url base64Data kind payload) →
     fst (saveBase64Image env dir now suffix base64Data s)
       = Throw (Error "Failed to save base64 image")
     ∧ disk (snd (saveBase64Image env dir now suffix base64Data s)) = disk s
     ∧ storage (snd (saveBase64Image env dir now suffix base64Data s)) = storage s)
    ∧ (∀ kind payload,
         is_data_url base64Data kind payload →
         let bytes := Buffer_from_base64 payload in
         let filename := generated_filename now suffix kind in
         let sent :=
           storage_upload BUCKET_NAME filename bytes (getContentType filename) true
             (storage s) in
         disk (snd (saveBase64Image env dir now suffix base64Data s))
           = <[path_join dir filename := bytes]> (disk s)
         ∧ (getSupabase env = Return tt →
            storage (snd (saveBase64Image env dir now suffix base64Data s)) = fst sent
            ∧ (snd sent = None →
               fst (saveBase64Image env dir now suffix base64Data s)
               = Return
                   {| ProcessedImageResult.filename := filename;
                      ProcessedImageResult.imageUrl :=
                        storage_public_url BUCKET_NAME filename (fst sent);
                      ProcessedImageResult.filePath := path_join dir filename;
                      ProcessedImageResult.size := Z.of_nat (length bytes) |}))).
Proof.
  intros env dir now suffix base64Data s. split.
  - intros Hno. unfold saveBase64Image, Run.try_catch.
    rewrite (match_data_url_None _ Hno). by simpl.
  - intros kind payload Hm. apply match_data_url_spec in Hm.
    unfold saveBase64Image, Run.try_catch. rewrite Hm.
    unfold generated_filename, uploadToSupabase, writeFileSync, request, console_log,
      Run.bind, Run.modify, Run.lift, Run.gets, Run.ret, Run.throw.
    simpl.
    destruct (getSupabase env) as [[]|e]; simpl.
    + destruct (storage_upload _ _ _ _ _ _) as [b [err|]]; simpl.
      * split; [reflexivity|]. intros _. split; [reflexivity | discriminate].
      * split; [reflexivity|]. intros _. split; reflexivity.
    + split; [reflexivity | discriminate].
Qed.

End Base64Facts.

Lemma processImage_uploads_staged_file_witness :
  ∃ (r : ProcessedImageResult.t) (s' : UploadService.State Bucket.t),
    UploadService.processImage Sample.database_env Sample.uploads Sample.scan
      (Sample.upload_state None) = (Return r, s')
    ∧ ProcessedImageResult.imageUrl r
      = "https://medapp.supabase.co/storage/v1/object/public/oral_images/scan.png"
    ∧ Bucket.objects (UploadService.storage s') !! ("oral_images", "scan.png")
      = Some (Sample.scan_bytes, "image/png").
Proof.
  eexists _, _. split.
  - apply (processImage_uploads_staged_file (H := Reference.node) Sample.database_env
             Sample.uploads Sample.scan (Sample.upload_state None) Sample.scan_bytes);
      reflexivity.
  - split; [reflexivity | vm_compute; reflexivity].
Defined.

Lemma deleteImage_tolerates_storage_failure_witness :
  getSupabase Sample.database_env = Return tt
  ∧ fst (UploadService.deleteImage (H := Reference.node) Sample.database_env Sample.uploads
           "scan.png" (Sample.upload_state (Some Sample.rejected))) = Return tt
  ∧ UploadService.disk
      (snd (UploadService.deleteImage (H := Reference.node) Sample.database_env
              Sample.uploads "scan.png" (Sample.upload_state (Some Sample.rejected))))
      !! "/srv/backend/uploads/scan.png" = None.
Proof.
  split; [reflexivity|].
  destruct (deleteImage_tolerates_storage_failure (H := Reference.node) Sample.database_env
              Sample.uploads "scan.png" (Sample.upload_state (Some Sample.rejected)))
    as (_ & Hgone & Hrun & _).
  split.
  - rewrite (Hrun eq_refl (or_intror eq_refl)). reflexivity.
  - exact Hgone.
Defined.

(** C6, counterexample.  The empty file name is taken to the uploads
    directory: with the client available and the storage in service,
    [deleteImage] throws and the storage keeps the object. *)
Lemma deleteImage_uploads_directory_throws :
  getSupabase Sample.database_env = Return tt
  ∧ fst (UploadService.deleteImage (H := Reference.node) Sample.database_env Sample.uploads
           "" (Sample.upload_state None)) = Throw (Error "Failed to delete image")
  ∧ UploadService.storage
      (snd (UploadService.deleteImage (H := Reference.node) Sample.database_env
              Sample.uploads "" (Sample.upload_state None)))
    = UploadService.storage (Sample.upload_state None).
Proof. vm_compute. by split_and!. Qed.

Lemma saveBase64Image_by_pattern_witness :
  is_data_url "data:image/jpeg;base64,aGk=" "jpeg" "aGk="
  ∧ ∃ r : ProcessedImageResult.t,
      fst (UploadService.saveBase64Image (H := Reference.node) Sample.database_env
             Sample.uploads 1700000000123 "k3x9q" "data:image/jpeg;base64,aGk="
             (Sample.upload_state None)) = Return r
      ∧ ProcessedImageResult.filename r = "seg_1700000000123_k3x9q.jpg"
      ∧ ProcessedImageResult.size r = 2.
Proof.
  assert (is_data_url "data:image/jpeg;base64,aGk=" "jpeg" "aGk=") as Hurl
    by (apply match_data_url_spec; reflexivity).
  split; [exact Hurl|].
  destruct (saveBase64Image_by_pattern (H := Reference.node) Sample.database_env
              Sample.uploads 1700000000123 "k3x9q" "data:image/jpeg;base64,aGk="
              (Sample.upload_state None)) as (_ & Hmatch).
  destruct (Hmatch "jpeg" "aGk=" Hurl) as (_ & Hsent).
  destruct (Hsent eq_refl) as (_ & Hret).
  eexists. split; [apply Hret; reflexivity|]. split; vm_compute; reflexivity.
Defined.

(** ** The [diagnoses] table *)

Section DiagnosesFacts.
Import Diagnoses.









End DiagnosesFacts.

Section DiagnosesWrites.
Import Diagnoses.
















End DiagnosesWrites.



(** * Further properties of the patient service *)

(** ** Listing in memory mode *)

Lemma insert_latest_first_perm (p : Patient.t) (l : list Patient.t) :
  PatientService.insert_latest_first p l ≡ₚ p :: l.
Proof.
  induction l as [|q l IH]; simpl; [done|].
  destruct (Patient.createdAt q <=? Patient.createdAt p); [done|].
  rewrite IH. apply Permutation_swap.
Qed.

Lemma sort_latest_first_perm (l : list Patient.t) :
  PatientService.sort_latest_first l ≡ₚ l.
Proof.
  induction l as [|p l IH]; simpl; [done|].
  rewrite insert_latest_first_perm. by rewrite IH.
Qed.

Lemma insert_latest_first_sorted (p : Patient.t) (l : list Patient.t) :
  latest_first l → latest_first (PatientService.insert_latest_first p l).
Proof.
  unfold latest_first. induction 1 as [|q l Hl IH Hq]; simpl.
  - repeat constructor.
  - destruct (Patient.createdAt q <=? Patient.createdAt p) eqn:Hqp.
    + apply Z.leb_le in Hqp. constructor; [by constructor|].
      constructor; [done|]. eapply Forall_impl; [exact Hq|]. simpl. lia.
    + apply Z.leb_gt in Hqp. constructor; [exact IH|].
      rewrite insert_latest_first_perm. constructor; [lia | exact Hq].
Qed.

Lemma sort_latest_first_sorted (l : list Patient.t) :
  latest_first (PatientService.sort_latest_first l).
Proof.
  induction l as [|p l IH]; simpl; [constructor|].
  by apply insert_latest_first_sorted.
Qed.

Section ListingFacts.
Context `{DateApi} {DB : Type} `{PatientsClient DB}.
Import PatientService.

(** X1.  In memory mode [getAllPatients] returns the patients of the map,
    each as often as the map holds it, ordered from the latest creation time
    to the earliest, and leaves the state as it was. *)
Theorem getAllPatients_memory_latest_first :
  ∀ (env : Env) (s : State DB),
    isNoDB env = true →
    ∃ l : list Patient.t,
      getAllPatients env s = (Return l, s)
      ∧ l ≡ₚ JsMap.values (memoryPatients s)
      ∧ latest_first l.
Proof.
  intros env s Hmem. unfold getAllPatients. rewrite Hmem.
  eexists. split; [reflexivity|].
  split; [apply sort_latest_first_perm | apply sort_latest_first_sorted].
Qed.

End ListingFacts.

Lemma getAllPatients_memory_latest_first_witness :
  isNoDB Sample.memory_env = true
  ∧ ∃ l : list Patient.t,
      PatientService.getAllPatients (H := Reference.dates) Sample.memory_env
        Sample.memory_state = (Return l, Sample.memory_state)
      ∧ latest_first l.
Proof.
  split; [reflexivity|].
  destruct (getAllPatients_memory_latest_first (H := Reference.dates) Sample.memory_env
              Sample.memory_state eq_refl) as (l & Hrun & _ & Hsorted).
  exists l. split; [exact Hrun | exact Hsorted].
Defined.

(** ** Identifiers that are not stored, and deletions *)

Lemma JsMap_get_remove_eq {V : Type} (k : string) (m : JsMap.t V) :
  JsMap.get k (JsMap.remove k m) = None.
Proof.
  induction m as [|[k' v'] m IH]; simpl; [done|].
  destruct (decide (k' = k)); simpl; [done|]. by rewrite decide_False.
Qed.

Lemma JsMap_get_remove_ne {V : Type} (k k' : string) (m : JsMap.t V) :
  k ≠ k' → JsMap.get k' (JsMap.remove k m) = JsMap.get k' m.
Proof.
  intros Hne. induction m as [|[k0 v0] m IH]; simpl; [done|].
  destruct (decide (k0 = k)) as [->|Hk]; simpl.
  - by rewrite decide_False.
  - by rewrite IH.
Qed.

Lemma where_patient_id_removed (pid : string) (rows : list PatientRow.t) :
  Postgres.where_patient_id pid (Postgres.remove_rows pid rows) = [].
Proof.
  unfold Postgres.where_patient_id, Postgres.remove_rows.
  induction rows as [|r rows IH]; simpl; [done|].
  destruct (Postgres.matches pid r) eqn:Hr; simpl; [done|]. by rewrite Hr.
Qed.

Section AbsenceFacts.
Context `{DateApi}.
Import PatientService.

(** X2.  [getPatientById] and [updatePatient] on an identifier that is not
    stored throw the not-found error and leave the state as it was: in memory
    mode when the map has no entry for it, in database mode (the client
    configured) when no row has that [patient_id]. *)
Theorem absent_patient_not_found :
  (∀ {DB : Type} `{PatientsClient DB} (env : Env) (t : Z) (u : UpdatePatientRequest.t)
     (s : State DB),
     isNoDB env = true →
     JsMap.get (UpdatePatientRequest.id u) (memoryPatients s) = None →
     getPatientById env (UpdatePatientRequest.id u) s = (Throw not_found, s)
     ∧ updatePatient env t u s = (Throw not_found, s))
  ∧ (∀ (env : Env) (t : Z) (u : UpdatePatientRequest.t) (s : State Postgres.t),
       isNoDB env = false →
       getSupabase env = Return tt →
       Postgres.where_patient_id (UpdatePatientRequest.id u)
         (Postgres.patients (database s)) = [] →
       getPatientById env (UpdatePatientRequest.id u) s = (Throw not_found, s)
       ∧ updatePatient env t u s = (Throw not_found, s)).
Proof.
  split.
  - intros DB ? env t u s Hmem Hnone.
    unfold getPatientById, updatePatient. rewrite Hmem. lazy zeta. by rewrite Hnone.
  - intros env t u s Hdb Hcfg Hnone.
    unfold getPatientById, updatePatient. rewrite Hdb, Hcfg. lazy zeta. simpl.
    unfold Postgres.select_one, Postgres.update, Postgres.request. rewrite Hnone.
    destruct (Postgres.link (database s)); [|destruct (Postgres.no_columns _)]; simpl;
      by rewrite with_database_id.
Qed.

(** X3.  A deletion that returns removes the patient: [getPatientById] on the
    same identifier then throws the not-found error.  In memory mode the
    deletion returns for every stored identifier and the other entries of the
    map are as before; in database mode it returns when the client is
    configured, the transport is up and one row has that [patient_id]. *)
Theorem deletePatient_then_getPatientById :
  (∀ {DB : Type} `{PatientsClient DB} (env : Env) (id : string) (s : State DB)
     (p : Patient.t),
     isNoDB env = true →
     JsMap.get id (memoryPatients s) = Some p →
     ∃ s' : State DB,
       deletePatient env id s = (Return tt, s')
       ∧ getPatientById env id s' = (Throw not_found, s')
       ∧ ∀ k, k ≠ id → JsMap.get k (memoryPatients s') = JsMap.get k (memoryPatients s))
  ∧ (∀ (env : Env) (id : string) (s : State Postgres.t) (row : PatientRow.t),
       isNoDB env = false →
       getSupabase env = Return tt →
       Postgres.link (database s) = None →
       Postgres.where_patient_id id (Postgres.patients (database s)) = [row] →
       ∃ s' : State Postgres.t,
         deletePatient env id s = (Return tt, s')
         ∧ getPatientById env id s' = (Throw not_found, s')).
Proof.
  split.
  - intros DB ? env id s p Hmem Hp.
    unfold deletePatient, getPatientById, JsMap.delete. rewrite Hmem, Hp.
    rewrite bool_decide_true by (by eexists).
    eexists. split; [reflexivity|]. simpl. rewrite JsMap_get_remove_eq.
    split; [reflexivity|]. intros k Hk. by apply JsMap_get_remove_ne.
  - intros env id s row Hdb Hcfg Hlink Hone.
    unfold deletePatient, getPatientById. rewrite Hdb, Hcfg. simpl.
    unfold Postgres.delete, Postgres.select_one, Postgres.request.
    rewrite Hlink, Hone. simpl.
    eexists. split; [reflexivity|]. simpl.
    rewrite Hlink, where_patient_id_removed. reflexivity.
Qed.

End AbsenceFacts.

Lemma absent_patient_not_found_witness :
  PatientService.getPatientById (H := Reference.dates) Sample.memory_env "patient-0"
    Sample.memory_state = (Throw PatientService.not_found, Sample.memory_state)
  ∧ PatientService.updatePatient (H := Reference.dates) Sample.database_env 0
      {| UpdatePatientRequest.id := "patient-0"; UpdatePatientRequest.name := Some "Eve";
         UpdatePatientRequest.medicalHistory := None |}
      (Sample.database_state None)
    = (Throw PatientService.not_found, Sample.database_state None).
Proof.
  destruct (absent_patient_not_found (H := Reference.dates)) as (Hmem & Hdb).
  split.
  - exact (proj1 (Hmem _ _ Sample.memory_env 0
             {| UpdatePatientRequest.id := "patient-0"; UpdatePatientRequest.name := None;
                UpdatePatientRequest.medicalHistory := None |}
             Sample.memory_state eq_refl eq_refl)).
  - exact (proj2 (Hdb Sample.database_env 0
             {| UpdatePatientRequest.id := "patient-0"; UpdatePatientRequest.name := Some "Eve";
                UpdatePatientRequest.medicalHistory := None |}
             (Sample.database_state None) eq_refl eq_refl eq_refl)).
Defined.

Lemma deletePatient_then_getPatientById_witness :
  (∃ s', PatientService.deletePatient Sample.memory_env (Patient.id Sample.alice)
           Sample.memory_state = (Return tt, s')
         ∧ PatientService.getPatientById (H := Reference.dates) Sample.memory_env
             (Patient.id Sample.alice) s' = (Throw PatientService.not_found, s'))
  ∧ (∃ s', PatientService.deletePatient Sample.database_env (Patient.id Sample.alice)
             (Sample.database_state None) = (Return tt, s')
           ∧ PatientService.getPatientById (H := Reference.dates) Sample.database_env
               (Patient.id Sample.alice) s' = (Throw PatientService.not_found, s')).
Proof.
  destruct (deletePatient_then_getPatientById (H := Reference.dates)) as (Hmem & Hdb).
  split.
  - destruct (Hmem _ _ Sample.memory_env (Patient.id Sample.alice) Sample.memory_state
                Sample.alice eq_refl eq_refl) as (s' & Hdel & Hget & _).
    exists s'. split; [exact Hdel | exact Hget].
  - destruct (Hdb Sample.database_env (Patient.id Sample.alice) (Sample.database_state None)
                Sample.alice_row eq_refl eq_refl eq_refl eq_refl) as (s' & Hdel & Hget).
    exists s'. split; [exact Hdel | exact Hget].
Defined.

(** ** The two storage modes side by side *)



Lemma varchar_null_Unknown : Sql.varchar_null 255 (Some "Unknown") = Some (Some "Unknown").
Proof. vm_compute. reflexivity. Qed.

Lemma typed_insert_frame (ins typed : PatientInsert.t) :
  Postgres.typed_insert ins = inr typed →
  PatientInsert.biopsy_confirmed typed = PatientInsert.biopsy_confirmed ins
  ∧ PatientInsert.history typed = PatientInsert.history ins
  ∧ Sql.varchar_null 255 (PatientInsert.doctor ins) = Some (PatientInsert.doctor typed).
Proof.
  unfold Postgres.typed_insert.
  destruct (Sql.varchar 255 (PatientInsert.patient_id ins)); [|discriminate].
  destruct (Sql.varchar 255 (PatientInsert.name ins)); [|discriminate].
  destruct (Sql.varchar 100 (PatientInsert.date ins)); [|discriminate].
  destruct (Sql.varchar 255 (PatientInsert.index ins)); [|discriminate].
  destruct (Sql.varchar_null 255 (PatientInsert.doctor ins)); [|discriminate].
  cbn [mbind Sql.sum_bind Sql.typed]. by intros [= <-].
Qed.

Section ModeFacts.
Context `{DateApi}.
Import PatientService.


(** X5.  In database mode without the URL or without the key of the
    database, every operation of the service throws the configuration error
    of [getSupabase] (and not the not-found error) and leaves the state as it
    was. *)
Theorem database_mode_without_credentials {DB : Type} `{PatientsClient DB} :
  ∀ (env : Env) (s : State DB),
    isNoDB env = false →
    unset (SUPABASE_URL env) = true ∨ unset (SUPABASE_ANON_KEY env) = true →
    ∃ message : string,
      getSupabase env = Throw (Error message)
      ∧ getAllPatients env s = (Throw (Error message), s)
      ∧ (∀ id, getPatientById env id s = (Throw (Error message), s))
      ∧ (∀ now t1 t2 t3 req,
           createPatient env now t1 t2 t3 req s = (Throw (Error message), s))
      ∧ (∀ t u, updatePatient env t u s = (Throw (Error message), s))
      ∧ (∀ id, deletePatient env id s = (Throw (Error message), s)).
Proof.
  intros env s Hdb Hunset.
  assert (unset (SUPABASE_URL env) || unset (SUPABASE_ANON_KEY env) = true) as Hor
    by (apply orb_true_iff; exact Hunset).
  eexists. split.
  - unfold getSupabase. rewrite Hor, Hdb. reflexivity.
  - unfold getAllPatients, getPatientById, createPatient, updatePatient, deletePatient,
      getSupabase.
    rewrite Hor, Hdb. by split_and!.
Qed.


(** X7.  The patient that [createPatient] returns carries the doctor
    ["Unknown"] in both modes, but the biopsy flag [false] only in memory
    mode: in database mode the flag is stored as null and returned as
    undefined. *)
Theorem createPatient_optional_fields :
  (∀ {DB : Type} `{PatientsClient DB} (env : Env) (now t1 t2 t3 : Z)
     (req : CreatePatientRequest.t) (s : State DB),
     isNoDB env = true →
     ∃ p : Patient.t,
       fst (createPatient env now t1 t2 t3 req s) = Return p
       ∧ Patient.biopsyConfirmed p = Some false
       ∧ Patient.doctor p = Some "Unknown")
  ∧ (∀ (env : Env) (now t1 t2 t3 : Z) (req : CreatePatientRequest.t)
       (s s' : State Postgres.t) (p : Patient.t),
       isNoDB env = false →
       createPatient env now t1 t2 t3 req s = (Return p, s') →
       Patient.biopsyConfirmed p = None
       ∧ Patient.doctor p = Some "Unknown"
       ∧ ∃ row : PatientRow.t,
           Postgres.where_patient_id (Patient.id p) (Postgres.patients (database s'))
             = [row]
           ∧ PatientRow.biopsy_confirmed row = None).
Proof.
  split.
  - intros DB ? env now t1 t2 t3 req s Hmem.
    unfold createPatient. rewrite Hmem. eexists. by split_and!.
  - intros env now t1 t2 t3 req s s' p Hdb.
    unfold createPatient. rewrite Hdb.
    destruct (getSupabase env) as [[]|e]; [|discriminate].
    simpl. unfold Postgres.insert, Postgres.request.
    destruct (Postgres.link (database s)) eqn:Hlink; simpl; [discriminate|].
    destruct (Postgres.typed_insert _) as [refused|typed] eqn:Htyped; simpl;
      [discriminate|].
    apply typed_insert_frame in Htyped as (Hbiopsy & _ & Hdoctor).
    change (PatientInsert.biopsy_confirmed typed = None) in Hbiopsy.
    change (Sql.varchar_null 255 (Some "Unknown") = Some (PatientInsert.doctor typed))
      in Hdoctor.
    rewrite varchar_null_Unknown in Hdoctor. injection Hdoctor as Hdoctor.
    match goal with
    | |- context [Postgres.where_patient_id ?pid (Postgres.patients (database s))] =>
        destruct (Postgres.where_patient_id pid (Postgres.patients (database s))) eqn:Hnone
    end; simpl; [|discriminate].
    intros [= <- <-]. simpl. rewrite Hbiopsy, <- Hdoctor.
    split; [reflexivity|]. split; [reflexivity|].
    match goal with
    | |- context [Postgres.new_row ?db ?ins] =>
        pose proof (where_patient_id_new_row db ins Hnone) as Hone
    end.
    simpl in Hone. eexists. split; [exact Hone | exact Hbiopsy].
Qed.


End ModeFacts.


Lemma database_mode_without_credentials_witness :
  isNoDB Sample.unconfigured_env = false
  ∧ ∃ message : string,
      PatientService.getPatientById (H := Reference.dates) Sample.unconfigured_env
        "patient-1700000000123" (Sample.database_state None)
      = (Throw (Error message), Sample.database_state None).
Proof.
  split; [reflexivity|].
  destruct (database_mode_without_credentials (H := Reference.dates)
              Sample.unconfigured_env (Sample.database_state None) eq_refl
              (or_introl eq_refl)) as (message & _ & _ & Hget & _).
  exists message. apply Hget.
Defined.


Lemma createPatient_optional_fields_witness :
  (∃ p : Patient.t,
     fst (PatientService.createPatient (H := Reference.dates) Sample.memory_env
            1700000000999 0 0 0 Sample.request_bob Sample.memory_state) = Return p
     ∧ Patient.biopsyConfirmed p = Some false)
  ∧ (∃ p : Patient.t,
       fst (PatientService.createPatient (H := Reference.dates) Sample.database_env
              1700000000999 0 0 0 Sample.request_bob (Sample.database_state None))
         = Return p
       ∧ Patient.biopsyConfirmed p = None).
Proof.
  destruct (createPatient_optional_fields (H := Reference.dates)) as (Hmem & Hdb).
  split.
  - destruct (Hmem _ _ Sample.memory_env 1700000000999 0 0 0 Sample.request_bob
                Sample.memory_state eq_refl) as (p & Hrun & Hflag & _).
    exists p. split; [exact Hrun | exact Hflag].
  - eexists. split; [vm_compute; reflexivity|].
    refine (proj1 (Hdb Sample.database_env 1700000000999 0 0 0 Sample.request_bob
                     (Sample.database_state None) _ _ eq_refl _)).
    vm_compute. reflexivity.
Defined.


(** ** What the service keeps true of its stores *)

Section JsMapInvariants.
Context {V : Type}.
Implicit Types (k : string) (v : V) (m : JsMap.t V).

Lemma JsMap_get_Some_elem k v m : JsMap.get k m = Some v → (k, v) ∈ m.
Proof.
  induction m as [|[k' v'] m IH]; simpl; [done|].
  destruct (decide (k' = k)) as [->|Hne].
  - intros [= ->]. left.
  - intros Hm. right. by apply IH.
Qed.

Lemma JsMap_set_elem k v m : (k, v) ∈ JsMap.set k v m.
Proof.
  induction m as [|[k' v'] m IH]; simpl; [left|].
  destruct (decide (k' = k)); [left | by right].
Qed.

Lemma JsMap_set_keys k v m k' : k' ∈ (JsMap.set k v m).*1 → k' = k ∨ k' ∈ m.*1.
Proof.
  induction m as [|[k0 v0] m IH]; simpl.
  - intros Hin. apply list_elem_of_singleton in Hin. by left.
  - destruct (decide (k0 = k)) as [->|Hne]; simpl.
    + intros Hin. apply elem_of_cons in Hin as [->|Hin]; [by left|].
      right. by right.
    + intros Hin. apply elem_of_cons in Hin as [->|Hin]; [right; left|].
      destruct (IH Hin) as [->|Hm]; [by left | right; by right].
Qed.

Lemma JsMap_set_NoDup k v m : NoDup m.*1 → NoDup (JsMap.set k v m).*1.
Proof.
  induction m as [|[k0 v0] m IH]; simpl.
  - intros _. apply NoDup_singleton.
  - intros Hm. apply NoDup_cons in Hm as [Hk0 Hm].
    destruct (decide (k0 = k)) as [->|Hne]; simpl.
    + by apply NoDup_cons.
    + apply NoDup_cons. split; [|by apply IH].
      intros Hin. apply JsMap_set_keys in Hin as [->|Hin]; [done | by apply Hk0].
Qed.

Lemma JsMap_set_Forall (P : string * V → Prop) k v m :
  P (k, v) → Forall P m → Forall P (JsMap.set k v m).
Proof.
  intros Hkv. induction 1 as [|[k0 v0] m H0 Hm IH]; simpl.
  - by repeat constructor.
  - destruct (decide (k0 = k)); constructor; done.
Qed.

Lemma JsMap_remove_sublist k m : sublist (JsMap.remove k m) m.
Proof.
  induction m as [|[k0 v0] m IH]; simpl; [constructor|].
  destruct (decide (k0 = k)); by constructor.
Qed.

End JsMapInvariants.

Lemma keyed_by_id_set (p : Patient.t) (m : JsMap.t Patient.t) :
  keyed_by_id m → keyed_by_id (JsMap.set (Patient.id p) p m).
Proof.
  intros [Hids Hkeys]. split.
  - by apply JsMap_set_Forall.
  - by apply JsMap_set_NoDup.
Qed.

Lemma keyed_by_id_remove (k : string) (m : JsMap.t Patient.t) :
  keyed_by_id m → keyed_by_id (JsMap.remove k m).
Proof.
  intros [Hids Hkeys]. split.
  - clear Hkeys. induction Hids as [|[k0 p0] m H0 Hm IH]; simpl; [constructor|].
    destruct (decide (k0 = k)); [exact IH | by constructor].
  - eapply sublist_NoDup; [exact Hkeys|].
    apply fmap_sublist, JsMap_remove_sublist.
Qed.

Lemma keyed_by_id_get (k : string) (p : Patient.t) (m : JsMap.t Patient.t) :
  keyed_by_id m → JsMap.get k m = Some p → Patient.id p = k.
Proof.
  intros [Hids _] Hget. apply JsMap_get_Some_elem in Hget.
  rewrite Forall_forall in Hids. exact (Hids _ Hget).
Qed.

Lemma keyed_by_id_values (m : JsMap.t Patient.t) :
  keyed_by_id m → NoDup (Patient.id <$> JsMap.values m).
Proof.
  intros [Hids Hkeys]. unfold JsMap.values.
  replace (Patient.id <$> m.*2) with m.*1; [exact Hkeys|].
  clear Hkeys. induction Hids as [|[k p] m Hkp Hm IH]; [done|].
  simpl in Hkp. rewrite !fmap_cons. simpl. by f_equal.
Qed.

Section MemoryInvariant.
Context `{DateApi} {DB : Type} `{PatientsClient DB}.
Import PatientService.

(** X9.  In memory mode, in every state that the service leads to from an
    empty map, each patient is filed under its own identifier and no
    identifier is filed twice; hence [getPatientById] returns a patient
    with the identifier asked for, and [getAllPatients] returns no two
    patients with the same identifier. *)
Theorem memory_patients_keyed_by_id :
  ∀ (env : Env) (s : State DB),
    isNoDB env = true →
    memory_reachable env s →
    keyed_by_id (memoryPatients s)
    ∧ (∀ id p, fst (getPatientById env id s) = Return p → Patient.id p = id)
    ∧ (∀ l, fst (getAllPatients env s) = Return l → NoDup (Patient.id <$> l)).
Proof.
  intros env s Hmem Hs.
  assert (keyed_by_id (memoryPatients s)) as Hkeyed.
  { induction Hs as [db | now t1 t2 t3 req s Hs IH | t u s Hs IH | id s Hs IH].
    - split; constructor.
    - unfold createPatient. rewrite Hmem. simpl.
      exact (keyed_by_id_set (new_patient now t1 t2 t3 req) _ IH).
    - unfold updatePatient. rewrite Hmem. lazy zeta.
      destruct (JsMap.get (UpdatePatientRequest.id u) (memoryPatients s))
        as [old|] eqn:Hold; simpl; [|exact IH].
      pose proof (keyed_by_id_get _ _ _ IH Hold) as Hid.
      match goal with
      | |- keyed_by_id (JsMap.set _ ?new _) =>
          pose proof (keyed_by_id_set new _ IH) as Hset
      end.
      simpl in Hset. rewrite <- Hid. exact Hset.
    - unfold deletePatient, JsMap.delete. rewrite Hmem.
      destruct (bool_decide _); simpl; by apply keyed_by_id_remove. }
  split; [exact Hkeyed|]. split.
  - intros id p. unfold getPatientById. rewrite Hmem.
    destruct (JsMap.get id (memoryPatients s)) as [q|] eqn:Hq; simpl; [|discriminate].
    intros [= <-]. by eapply keyed_by_id_get.
  - intros l. unfold getAllPatients. rewrite Hmem. simpl. intros [= <-].
    rewrite sort_latest_first_perm. by apply keyed_by_id_values.
Qed.

End MemoryInvariant.

Lemma memory_patients_keyed_by_id_witness :
  ∃ s : PatientService.State Postgres.t,
    memory_reachable (H := Reference.dates) Sample.memory_env s
    ∧ keyed_by_id (PatientService.memoryPatients s)
    ∧ length (PatientService.memoryPatients s) = 1%nat.
Proof.
  pose (s0 := {| PatientService.memoryPatients := [];
                 PatientService.database := Sample.database None |}).
  pose (s1 := snd (PatientService.createPatient (H := Reference.dates) Sample.memory_env
                     1700000000999 0 0 0 Sample.request_bob s0)).
  pose (s2 := snd (PatientService.createPatient (H := Reference.dates) Sample.memory_env
                     1700000000999 1 1 1 Sample.request_bob s1)).
  assert (memory_reachable (H := Reference.dates) Sample.memory_env s2) as Hs2.
  { apply memory_create, memory_create, memory_start. }
  exists s2. split; [exact Hs2|]. split.
  - exact (proj1 (memory_patients_keyed_by_id (H := Reference.dates) Sample.memory_env s2
                    eq_refl Hs2)).
  - vm_compute. reflexivity.
Defined.

Lemma where_patient_id_nil (pid : string) (rows : list PatientRow.t) :
  Postgres.where_patient_id pid rows = [] → pid ∉ PatientRow.patient_id <$> rows.
Proof.
  unfold Postgres.where_patient_id. induction rows as [|r rows IH]; simpl.
  - intros _ Hin. by apply elem_of_nil in Hin.
  - unfold Postgres.matches at 1. case_bool_decide as Hr; [discriminate|].
    intros Hnone Hin. apply elem_of_cons in Hin as [->|Hin]; [done | by apply IH].
Qed.

Lemma where_patient_id_unique (rows : list PatientRow.t) (row : PatientRow.t) :
  NoDup (PatientRow.patient_id <$> rows) → row ∈ rows →
  Postgres.where_patient_id (PatientRow.patient_id row) rows = [row].
Proof.
  unfold Postgres.where_patient_id. induction rows as [|r rows IH]; simpl.
  - intros _ Hin. by apply elem_of_nil in Hin.
  - intros Hnd Hin. apply NoDup_cons in Hnd as [Hr Hnd].
    unfold Postgres.matches at 1. apply elem_of_cons in Hin as [->|Hin].
    + rewrite bool_decide_true by done. f_equal.
      destruct (List.filter _ rows) as [|r' l] eqn:Hf; [done|].
      exfalso. apply Hr.
      assert (List.In r' (List.filter (Postgres.matches (PatientRow.patient_id r)) rows))
        as Hin by (rewrite Hf; by left).
      apply List.filter_In in Hin as [Hin Hm].
      apply bool_decide_eq_true in Hm. rewrite <- Hm.
      apply list_elem_of_fmap. exists r'. split; [done | by apply list_elem_of_In].
    + rewrite bool_decide_false; [by apply IH|].
      intros Heq. apply Hr. rewrite Heq.
      apply list_elem_of_fmap. by exists row.
Qed.

Lemma replace_row_patient_ids (pid : string) (r' : PatientRow.t)
    (rows : list PatientRow.t) :
  PatientRow.patient_id r' = pid →
  PatientRow.patient_id <$> Postgres.replace_row pid r' rows
  = PatientRow.patient_id <$> rows.
Proof.
  intros Hpid. unfold Postgres.replace_row.
  induction rows as [|r rows IH]; [done|].
  rewrite !fmap_cons. f_equal; [|exact IH].
  unfold Postgres.matches. case_bool_decide; congruence.
Qed.

Lemma remove_rows_sublist (pid : string) (rows : list PatientRow.t) :
  sublist (Postgres.remove_rows pid rows) rows.
Proof.
  unfold Postgres.remove_rows. induction rows as [|r rows IH]; simpl; [constructor|].
  destruct (negb (Postgres.matches pid r)); by constructor.
Qed.

Lemma typed_update_patient_id (u u' : PatientUpdate.t) :
  Postgres.typed_update u = inr u' →
  PatientUpdate.patient_id u = None → PatientUpdate.patient_id u' = None.
Proof.
  unfold Postgres.typed_update. intros Hu' Hnone. rewrite Hnone in Hu'.
  cbn [Sql.varchar_given Sql.varchar_null Sql.typed mbind Sql.sum_bind] in Hu'.
  destruct (Sql.varchar_given 255 (PatientUpdate.name u)); [|discriminate].
  destruct (Sql.varchar_given 100 (PatientUpdate.date u)); [|discriminate].
  destruct (Sql.varchar_given 255 (PatientUpdate.index u)); [|discriminate].
  cbn [Sql.typed mbind Sql.sum_bind] in Hu'.
  destruct (match PatientUpdate.doctor u with
            | Some d => Some <$> Sql.varchar_null 255 d
            | None => Some None
            end); [|discriminate].
  cbn [Sql.typed mbind Sql.sum_bind] in Hu'. by injection Hu' as <-.
Qed.

Lemma insert_keeps_unique (ins : PatientInsert.t) (db : Postgres.t) :
  unique_patient_ids db → unique_patient_ids (fst (Postgres.insert ins db)).
Proof.
  unfold unique_patient_ids, Postgres.insert, Postgres.request. intros Hdb.
  destruct (Postgres.link db); [exact Hdb|].
  destruct (Postgres.typed_insert ins) as [refused|typed]; [exact Hdb|].
  destruct (Postgres.where_patient_id _ _) eqn:Hnone; [|exact Hdb].
  simpl. rewrite fmap_app. apply NoDup_app. split; [exact Hdb|]. split.
  - intros pid Hin Hnew. apply list_elem_of_singleton in Hnew.
    apply where_patient_id_nil in Hnone. simpl in Hnew. by subst pid.
  - apply NoDup_singleton.
Qed.

Lemma update_keeps_unique (u : PatientUpdate.t) (pid : string) (db : Postgres.t) :
  PatientUpdate.patient_id u = None →
  unique_patient_ids db → unique_patient_ids (fst (Postgres.update u pid db)).
Proof.
  unfold unique_patient_ids, Postgres.update, Postgres.request. intros Hu Hdb.
  destruct (Postgres.link db); [exact Hdb|].
  destruct (Postgres.no_columns u); [exact Hdb|].
  destruct (Postgres.where_patient_id pid (Postgres.patients db)) as [|r [|]] eqn:Hone;
    [exact Hdb| |exact Hdb].
  pose proof (where_patient_id_single _ _ _ Hone) as Hpid.
  unfold Postgres.set_columns.
  destruct (Postgres.typed_update u) as [refused|u'] eqn:Hu'; [exact Hdb|].
  cbn [mbind Sql.sum_bind].
  assert (PatientRow.patient_id (Postgres.assign db u' r) = pid) as Hnew
    by (simpl; by rewrite (typed_update_patient_id u u' Hu' Hu)).
  rewrite (bool_decide_true _ Hnew). simpl.
  by rewrite replace_row_patient_ids.
Qed.

Lemma delete_keeps_unique (pid : string) (db : Postgres.t) :
  unique_patient_ids db → unique_patient_ids (fst (Postgres.delete pid db)).
Proof.
  unfold unique_patient_ids, Postgres.delete, Postgres.request. intros Hdb.
  destruct (Postgres.link db); [exact Hdb|].
  destruct (Postgres.where_patient_id pid (Postgres.patients db)) as [|r [|]];
    [exact Hdb| |exact Hdb].
  simpl. eapply sublist_NoDup; [exact Hdb|].
  apply fmap_sublist, remove_rows_sublist.
Qed.

Section TableInvariant.
Context `{DateApi}.
Import PatientService.

(** X10.  In database mode, in every state that the service leads to from an
    empty table, no two rows have the same [patient_id] (the constraint of
    the schema can always be kept); hence, with the client configured and
    the transport up, [getPatientById] returns every stored row, converted. *)
Theorem table_patient_ids_unique :
  ∀ (env : Env) (s : State Postgres.t),
    isNoDB env = false →
    table_reachable env s →
    unique_patient_ids (database s)
    ∧ (getSupabase env = Return tt →
       Postgres.link (database s) = None →
       ∀ row, row ∈ Postgres.patients (database s) →
              getPatientById env (PatientRow.patient_id row) s
              = (Return (fromDbFormat row), s)).
Proof.
  intros env s Hdb Hs.
  assert (unique_patient_ids (database s)) as Hunique.
  { induction Hs as [m l c n | l c s Hs IH | now t1 t2 t3 req s Hs IH
                    | t u s Hs IH | id s Hs IH].
    - constructor.
    - exact IH.
    - unfold createPatient. rewrite Hdb.
      destruct (getSupabase env); [|exact IH]. lazy zeta.
      pose proof (insert_keeps_unique
                    (toDbFormat (new_patient now t1 t2 t3 req)) _ IH) as Hins.
      revert Hins.
      change (Postgres.insert ?i ?d) with (insert_select_single i d).
      destruct (insert_select_single _ (database s)) as [db r]. simpl.
      destruct (error r); [done|]. by destruct (data r).
    - unfold updatePatient. rewrite Hdb.
      destruct (getSupabase env); [|exact IH]. lazy zeta.
      pose proof (update_keeps_unique (update_payload u) (UpdatePatientRequest.id u) _
                    eq_refl IH) as Hupd.
      revert Hupd.
      change (Postgres.update ?p ?i ?d) with (update_eq_select_single p i d).
      destruct (update_eq_select_single _ _ (database s)) as [db r]. simpl.
      destruct (error r); [done|]. by destruct (data r).
    - unfold deletePatient. rewrite Hdb.
      destruct (getSupabase env); [|exact IH].
      pose proof (delete_keeps_unique id _ IH) as Hdel.
      revert Hdel.
      change (Postgres.delete ?i ?d) with (delete_eq_select_single i d).
      destruct (delete_eq_select_single _ (database s)) as [db r]. simpl.
      destruct (error r); [done|]. by destruct (data r). }
  split; [exact Hunique|].
  intros Hcfg Hlink row Hrow.
  unfold getPatientById. rewrite Hdb, Hcfg. simpl.
  unfold Postgres.select_one, Postgres.request. rewrite Hlink.
  rewrite (where_patient_id_unique _ _ Hunique Hrow). simpl.
  by rewrite with_database_id.
Qed.

End TableInvariant.

Lemma table_patient_ids_unique_witness :
  ∃ s : PatientService.State Postgres.t,
    table_reachable (H := Reference.dates) Sample.database_env s
    ∧ unique_patient_ids (PatientService.database s)
    ∧ length (Postgres.patients (PatientService.database s)) = 1%nat.
Proof.
  pose (s0 := {| PatientService.memoryPatients := [];
                 PatientService.database :=
                   {| Postgres.patients := []; Postgres.link := None;
                      Postgres.clock := "2023-11-15T08:00:00.000Z";
                      Postgres.uuids := 1 |} |}).
  pose (s1 := snd (PatientService.createPatient (H := Reference.dates) Sample.database_env
                     1700000000999 0 0 0 Sample.request_bob s0)).
  pose (s2 := snd (PatientService.createPatient (H := Reference.dates) Sample.database_env
                     1700000000999 1 1 1 Sample.request_bob s1)).
  assert (table_reachable (H := Reference.dates) Sample.database_env s2) as Hs2.
  { apply table_create, table_create. exact (table_start _ _ _ _ _). }
  exists s2. split; [exact Hs2|]. split.
  - exact (proj1 (table_patient_ids_unique (H := Reference.dates) Sample.database_env s2
                    eq_refl Hs2)).
  - vm_compute. reflexivity.
Defined.

(** ** Listing after a creation *)

Lemma insert_desc_perm (r : PatientRow.t) (l : list PatientRow.t) :
  Postgres.insert_desc r l ≡ₚ r :: l.
Proof.
  induction l as [|q l IH]; simpl; [done|].
  destruct (String.leb _ _); [done|]. rewrite IH. apply Permutation_swap.
Qed.

Lemma order_created_desc_perm (l : list PatientRow.t) :
  Postgres.order_created_desc l ≡ₚ l.
Proof.
  induction l as [|r l IH]; simpl; [done|].
  rewrite insert_desc_perm. by rewrite IH.
Qed.

Section ListingAfterCreation.
Context `{DateApi}.
Import PatientService.

(** X11.  A patient that [createPatient] returned is among the patients that
    [getAllPatients] returns next: in memory mode always, in database mode
    whenever the creation returned. *)
Theorem createPatient_then_getAllPatients :
  (∀ {DB : Type} `{PatientsClient DB} (env : Env) (now t1 t2 t3 : Z)
     (req : CreatePatientRequest.t) (s : State DB),
     isNoDB env = true →
     ∃ (p : Patient.t) (s' : State DB) (l : list Patient.t),
       createPatient env now t1 t2 t3 req s = (Return p, s')
       ∧ getAllPatients env s' = (Return l, s')
       ∧ p ∈ l)
  ∧ (∀ (env : Env) (now t1 t2 t3 : Z) (req : CreatePatientRequest.t)
       (s s' : State Postgres.t) (p : Patient.t),
       isNoDB env = false →
       createPatient env now t1 t2 t3 req s = (Return p, s') →
       ∃ l : list Patient.t,
         getAllPatients env s' = (Return l, s') ∧ p ∈ l).
Proof.
  split.
  - intros DB ? env now t1 t2 t3 req s Hmem.
    unfold createPatient, getAllPatients. rewrite Hmem. lazy zeta.
    eexists _, _, _. split; [reflexivity|]. split; [reflexivity|].
    rewrite sort_latest_first_perm. unfold JsMap.values. simpl.
    apply list_elem_of_fmap. eexists (_, _). split; [|apply JsMap_set_elem]. done.
  - intros env now t1 t2 t3 req s s' p Hdb.
    unfold createPatient, getAllPatients. rewrite Hdb.
    destruct (getSupabase env) as [[]|e]; [|discriminate].
    simpl. unfold Postgres.insert, Postgres.select_all, Postgres.request.
    destruct (Postgres.link (database s)) eqn:Hlink; simpl; [discriminate|].
    destruct (Postgres.typed_insert _) as [refused|typed]; simpl; [discriminate|].
    match goal with
    | |- context [Postgres.where_patient_id ?pid (Postgres.patients (database s))] =>
        destruct (Postgres.where_patient_id pid (Postgres.patients (database s)))
    end; simpl; [|discriminate].
    intros [= <- <-]. simpl.
    eexists. split; [reflexivity|].
    apply list_elem_of_fmap. eexists. split; [reflexivity|].
    rewrite order_created_desc_perm. apply elem_of_app. right. left.
Qed.

End ListingAfterCreation.

Lemma createPatient_then_getAllPatients_witness :
  ∃ (p : Patient.t) (s' : PatientService.State Postgres.t) (l : list Patient.t),
    PatientService.createPatient (H := Reference.dates) Sample.database_env
      1700000000999 0 0 0 Sample.request_bob (Sample.database_state None) = (Return p, s')
    ∧ PatientService.getAllPatients Sample.database_env s' = (Return l, s')
    ∧ p ∈ l.
Proof.
  destruct (createPatient_then_getAllPatients (H := Reference.dates)) as (_ & Hdb).
  eexists _, _.
  assert (∀ (A : Type) (P Q : A → Prop) (R : Prop),
            R → (R → ∃ l, P l ∧ Q l) → ∃ l, R ∧ P l ∧ Q l) as Hlift.
  { intros A P Q R HR Hex. destruct (Hex HR) as (l & HP & HQ). by exists l. }
  apply Hlift.
  - vm_compute. reflexivity.
  - apply (Hdb Sample.database_env 1700000000999 0 0 0 Sample.request_bob
             (Sample.database_state None)). reflexivity.
Defined.

(** * Further properties of the upload service *)

Section UploadFailures.
Context `{NodeApi} {B : Type} `{StorageClient B}.
Import UploadService.

Ltac run_upload :=
  unfold processImage, deleteImage, saveBase64Image, uploadToSupabase, readFileSync,
    writeFileSync, existsSync, unlinkSync, request, console_log,
    Run.try_catch, Run.bind, Run.modify, Run.lift, Run.gets, Run.ret, Run.throw.

(** X12.  [processImage] never changes the disk, and whatever goes wrong it
    throws one error only, [Failed to process image]: when no file is staged
    at the uploads path (the storage is then not contacted), when the client
    is not available, and when the storage refuses the upload. *)
Theorem processImage_failures :
  ∀ (env : Env) (dir : string) (file : MulterFile.t) (s : State B),
    let path := path_join dir (MulterFile.filename file) in
    let failed := Throw (Error "Failed to process image") in
    disk (snd (processImage env dir file s)) = disk s
    ∧ ((∃ r, fst (processImage env dir file s) = Return r)
       ∨ fst (processImage env dir file s) = failed)
    ∧ (disk s !! path = None →
       fst (processImage env dir file s) = failed
       ∧ storage (snd (processImage env dir file s)) = storage s)
    ∧ (∀ e, getSupabase env = Throw e → fst (processImage env dir file s) = failed)
    ∧ (∀ bytes e,
         disk s !! path = Some bytes →
         snd (storage_upload BUCKET_NAME (MulterFile.filename file) bytes
                (getContentType (MulterFile.filename file)) true (storage s)) = Some e →
         fst (processImage env dir file s) = failed).
Proof.
  intros env dir file s path failed. subst path failed. run_upload.
  destruct (disk s !! path_join dir (MulterFile.filename file)) as [bytes|] eqn:Hfile;
    simpl.
  - destruct (getSupabase env) as [[]|e0] eqn:Hcfg; simpl.
    + destruct (storage_upload BUCKET_NAME (MulterFile.filename file) bytes
                  (getContentType (MulterFile.filename file)) true (storage s))
        as [b [e|]] eqn:Hup; simpl.
      * split_and!; [done | by right | done | done |].
        intros bytes' e' [= <-]. rewrite Hup. done.
      * split_and!; [done | left; by eexists | done | done |].
        intros bytes' e' [= <-]. rewrite Hup. done.
    + split_and!; [done | by right | done | done | done].
  - destruct (is_directory dir (path_join dir (MulterFile.filename file))); simpl;
      (split_and!; [done | by right | done | | done]);
      by destruct (getSupabase env).
Qed.

(** X13.  When the string matches the pattern but the client is not
    available or the storage refuses the upload, [saveBase64Image] throws
    [Failed to save base64 image] and the decoded file stays on the disk. *)
Theorem saveBase64Image_failed_upload_keeps_file :
  ∀ (env : Env) (dir : string) (now : Z) (suffix base64Data kind payload : string)
    (s : State B),
    let bytes := Buffer_from_base64 payload in
    let filename := generated_filename now suffix kind in
    is_data_url base64Data kind payload →
    (∃ e, getSupabase env = Throw e)
    ∨ (∃ e, snd (storage_upload BUCKET_NAME filename bytes (getContentType filename) true
                   (storage s)) = Some e) →
    fst (saveBase64Image env dir now suffix base64Data s)
      = Throw (Error "Failed to save base64 image")
    ∧ disk (snd (saveBase64Image env dir now suffix base64Data s))
        !! path_join dir filename = Some bytes.
Proof.
  intros env dir now suffix base64Data kind payload s bytes filename Hm Hfail.
  subst bytes filename. apply match_data_url_spec in Hm.
  unfold saveBase64Image, Run.try_catch. rewrite Hm.
  unfold generated_filename in *. run_upload. simpl.
  destruct (getSupabase env) as [[]|e0]; simpl.
  - destruct Hfail as [[e He]|[e He]]; [discriminate|].
    destruct (storage_upload _ _ _ _ _ _) as [b err]. simpl in He. subst err. simpl.
    split; [reflexivity | apply lookup_insert_eq].
  - split; [reflexivity | apply lookup_insert_eq].
Qed.

(** X14.  When the client is not available, [deleteImage] throws
    [Failed to delete image] after it has removed the local file; the
    storage is not contacted. *)
Theorem deleteImage_without_client :
  ∀ (env : Env) (dir filename : string) (s : State B) (e : Exn),
    getSupabase env = Throw e →
    fst (deleteImage env dir filename s) = Throw (Error "Failed to delete image")
    ∧ disk (snd (deleteImage env dir filename s)) !! path_join dir filename = None
    ∧ storage (snd (deleteImage env dir filename s)) = storage s.
Proof.
  intros env dir filename s e Hcfg. run_upload. cbn beta iota zeta.
  destruct (disk s !! path_join dir filename) as [bytes|] eqn:Hfile.
  - rewrite bool_decide_true by (by eexists). cbn [orb].
    rewrite Hfile, Hcfg. simpl. split_and!; [done | apply lookup_delete_eq | done].
  - rewrite bool_decide_false by (by intros [? ?]). cbn [orb].
    destruct (is_directory dir (path_join dir filename)).
    + rewrite Hfile. simpl. by split_and!.
    + rewrite Hcfg. simpl. by split_and!.
Qed.

End UploadFailures.

Section UploadRuns.
Context `{NodeApi} {B : Type} `{StorageClient B}.
Import UploadService.

(** The run of [processImage] when nothing fails. *)
Lemma processImage_run (env : Env) (dir : string) (file : MulterFile.t) (s : State B)
    (bytes : list byte) :
  getSupabase env = Return tt →
  disk s !! path_join dir (MulterFile.filename file) = Some bytes →
  snd (storage_upload BUCKET_NAME (MulterFile.filename file) bytes
         (getContentType (MulterFile.filename file)) true (storage s)) = None →
  processImage env dir file s
  = (Return
       {| ProcessedImageResult.filename := MulterFile.filename file;
          ProcessedImageResult.imageUrl :=
            storage_public_url BUCKET_NAME (MulterFile.filename file)
              (fst (storage_upload BUCKET_NAME (MulterFile.filename file) bytes
                      (getContentType (MulterFile.filename file)) true (storage s)));
          ProcessedImageResult.filePath := path_join dir (MulterFile.filename file);
          ProcessedImageResult.size := MulterFile.size file |},
     {| disk := disk s;
        storage :=
          fst (storage_upload BUCKET_NAME (MulterFile.filename file) bytes
                 (getContentType (MulterFile.filename file)) true (storage s));
        console := console s |}).
Proof.
  intros Hcfg Hfile Hok.
  unfold processImage, Run.try_catch, Run.bind, readFileSync, uploadToSupabase,
    Run.bind, Run.lift, request, Run.gets, Run.ret.
  rewrite Hfile, Hcfg. simpl.
  destruct (storage_upload _ _ _ _ _ _) as [b err]. simpl in *. by subst err.
Qed.

(** The run of [deleteImage] with the client available. *)
Lemma deleteImage_run (env : Env) (dir filename : string) (s : State B) :
  getSupabase env = Return tt →
  is_Some (disk s !! path_join dir filename) →
  deleteImage env dir filename s
  = (Return tt,
     {| disk := delete (path_join dir filename) (disk s);
        storage := fst (storage_remove BUCKET_NAME [filename] (storage s));
        console :=
          console s
          ++ delete_warning (snd (storage_remove BUCKET_NAME [filename] (storage s))) |}).
Proof.
  intros Hcfg Hfile.
  unfold deleteImage, Run.try_catch, Run.bind, existsSync, unlinkSync,
    Run.gets, Run.ret, Run.lift, request, console_log, Run.modify, Run.throw.
  cbn beta iota zeta. rewrite bool_decide_true by exact Hfile. cbn [orb].
  destruct Hfile as [bytes Hfile]. rewrite Hfile, Hcfg. simpl.
  destruct (storage_remove BUCKET_NAME [filename] (storage s)) as [b [e|]]; simpl;
    [reflexivity|]. by rewrite app_nil_r.
Qed.

End UploadRuns.

Section UploadRoundTrip.
Context `{NodeApi}.
Import UploadService.

(** X15.  With a bucket that is in service and the client available, a
    staged file that [processImage] has uploaded is held by the bucket under
    the file's name, with the bytes of the file; [deleteImage] on the name
    that [processImage] returned then leaves neither the local file nor the
    object in the bucket. *)
Theorem processImage_then_deleteImage :
  ∀ (env : Env) (dir : string) (file : MulterFile.t) (s : State Bucket.t)
    (bytes : list byte),
    getSupabase env = Return tt →
    Bucket.outage (storage s) = None →
    disk s !! path_join dir (MulterFile.filename file) = Some bytes →
    ∃ (r : ProcessedImageResult.t) (s1 s2 : State Bucket.t),
      processImage env dir file s = (Return r, s1)
      ∧ Bucket.objects (storage s1) !! (BUCKET_NAME, MulterFile.filename file)
        = Some (bytes, getContentType (MulterFile.filename file))
      ∧ deleteImage env dir (ProcessedImageResult.filename r) s1 = (Return tt, s2)
      ∧ disk s2 !! ProcessedImageResult.filePath r = None
      ∧ Bucket.objects (storage s2) !! (BUCKET_NAME, MulterFile.filename file) = None.
Proof.
  intros env dir file s bytes Hcfg Hup Hfile.
  assert (Bucket.upload BUCKET_NAME (MulterFile.filename file) bytes
            (getContentType (MulterFile.filename file)) true (storage s)
          = (Bucket.with_objects
               (<[(BUCKET_NAME, MulterFile.filename file)
                  := (bytes, getContentType (MulterFile.filename file))]>
                  (Bucket.objects (storage s))) (storage s), None)) as Hsent
    by (unfold Bucket.upload; by rewrite Hup).
  eexists _, _, _. split.
  { apply (processImage_run env dir file s bytes Hcfg Hfile).
    simpl. by rewrite Hsent. }
  simpl. rewrite Hsent. simpl.
  split; [apply lookup_insert_eq|]. split.
  { apply (deleteImage_run env dir (MulterFile.filename file) _ Hcfg).
    simpl. by eexists. }
  simpl. unfold Bucket.remove. simpl. rewrite Hup. simpl.
  split; apply lookup_delete_eq.
Qed.

(** X16.  With a bucket that is in service and the client available,
    [saveBase64Image] on a string that matches the pattern returns, and
    the file at the returned path and the object under the returned name
    hold the same bytes, as many as the returned size. *)
Theorem saveBase64Image_copies_agree :
  ∀ (env : Env) (dir : string) (now : Z) (suffix base64Data kind payload : string)
    (s : State Bucket.t),
    is_data_url base64Data kind payload →
    getSupabase env = Return tt →
    Bucket.outage (storage s) = None →
    ∃ (r : ProcessedImageResult.t) (s' : State Bucket.t) (bytes : list byte),
      saveBase64Image env dir now suffix base64Data s = (Return r, s')
      ∧ disk s' !! ProcessedImageResult.filePath r = Some bytes
      ∧ fst <$> Bucket.objects (storage s') !! (BUCKET_NAME, ProcessedImageResult.filename r)
        = Some bytes
      ∧ ProcessedImageResult.size r = Z.of_nat (length bytes).
Proof.
  intros env dir now suffix base64Data kind payload s Hm Hcfg Hup.
  apply match_data_url_spec in Hm.
  unfold saveBase64Image, Run.try_catch. rewrite Hm.
  unfold uploadToSupabase, writeFileSync, request, console_log,
    Run.bind, Run.modify, Run.lift, Run.gets, Run.ret, Run.throw.
  rewrite Hcfg. simpl. unfold Bucket.upload. rewrite Hup. simpl.
  eexists _, _, _. split; [reflexivity|]. simpl.
  split; [apply lookup_insert_eq|]. split; [|reflexivity].
  by rewrite lookup_insert_eq.
Qed.

End UploadRoundTrip.

Lemma saveBase64Image_failed_upload_keeps_file_witness :
  is_data_url "data:image/png;base64,aGk=" "png" "aGk="
  ∧ fst (UploadService.saveBase64Image (H := Reference.node) Sample.database_env
           Sample.uploads 1700000000123 "k3x9q" "data:image/png;base64,aGk="
           (Sample.upload_state (Some Sample.rejected)))
    = Throw (Error "Failed to save base64 image")
  ∧ UploadService.disk
      (snd (UploadService.saveBase64Image (H := Reference.node) Sample.database_env
              Sample.uploads 1700000000123 "k3x9q" "data:image/png;base64,aGk="
              (Sample.upload_state (Some Sample.rejected))))
      !! "/srv/backend/uploads/seg_1700000000123_k3x9q.png" = Some [x68; x69].
Proof.
  assert (is_data_url "data:image/png;base64,aGk=" "png" "aGk=") as Hurl
    by (apply match_data_url_spec; reflexivity).
  split; [exact Hurl|].
  apply (saveBase64Image_failed_upload_keeps_file (H := Reference.node)
           Sample.database_env Sample.uploads 1700000000123 "k3x9q"
           "data:image/png;base64,aGk=" "png" "aGk="
           (Sample.upload_state (Some Sample.rejected)) Hurl).
  right. exists Sample.rejected. reflexivity.
Defined.

Lemma deleteImage_without_client_witness :
  getSupabase Sample.unconfigured_env
    = Throw (Error "SUPABASE_URL and SUPABASE_ANON_KEY are required. Set NO_DB=true to skip database.")
  ∧ fst (UploadService.deleteImage (H := Reference.node) Sample.unconfigured_env
           Sample.uploads "scan.png" (Sample.upload_state None))
    = Throw (Error "Failed to delete image")
  ∧ UploadService.disk
      (snd (UploadService.deleteImage (H := Reference.node) Sample.unconfigured_env
              Sample.uploads "scan.png" (Sample.upload_state None)))
      !! "/srv/backend/uploads/scan.png" = None.
Proof.
  split; [reflexivity|].
  destruct (deleteImage_without_client (H := Reference.node) Sample.unconfigured_env
              Sample.uploads "scan.png" (Sample.upload_state None) _ eq_refl)
    as (Hthrow & Hgone & _).
  split; [exact Hthrow | exact Hgone].
Defined.

Lemma processImage_then_deleteImage_witness :
  ∃ (r : ProcessedImageResult.t) (s1 s2 : UploadService.State Bucket.t),
    UploadService.processImage (H := Reference.node) Sample.database_env Sample.uploads
      Sample.scan (Sample.upload_state None) = (Return r, s1)
    ∧ UploadService.deleteImage (H := Reference.node) Sample.database_env Sample.uploads
        (ProcessedImageResult.filename r) s1 = (Return tt, s2)
    ∧ UploadService.disk s2 !! ProcessedImageResult.filePath r = None.
Proof.
  destruct (processImage_then_deleteImage (H := Reference.node) Sample.database_env
              Sample.uploads Sample.scan (Sample.upload_state None) Sample.scan_bytes
              eq_refl eq_refl eq_refl) as (r & s1 & s2 & Hup & _ & Hdel & Hgone & _).
  exists r, s1, s2. split; [exact Hup|]. split; [exact Hdel | exact Hgone].
Defined.

Lemma saveBase64Image_copies_agree_witness :
  ∃ (r : ProcessedImageResult.t) (s' : UploadService.State Bucket.t),
    UploadService.saveBase64Image (H := Reference.node) Sample.database_env
      Sample.uploads 1700000000123 "k3x9q" "data:image/png;base64,aGk="
      (Sample.upload_state None) = (Return r, s')
    ∧ UploadService.disk s' !! ProcessedImageResult.filePath r = Some [x68; x69]
    ∧ ProcessedImageResult.size r = 2.
Proof.
  assert (is_data_url "data:image/png;base64,aGk=" "png" "aGk=") as Hurl
    by (apply match_data_url_spec; reflexivity).
  destruct (saveBase64Image_copies_agree (H := Reference.node) Sample.database_env
              Sample.uploads 1700000000123 "k3x9q" "data:image/png;base64,aGk=" "png"
              "aGk=" (Sample.upload_state None) Hurl eq_refl eq_refl)
    as (r & s' & bytes & Hrun & Hdisk & _ & Hsize).
  exists r, s'. split; [exact Hrun|].
  assert ((Return r, s')
          = UploadService.saveBase64Image (H := Reference.node) Sample.database_env
              Sample.uploads 1700000000123 "k3x9q" "data:image/png;base64,aGk="
              (Sample.upload_state None)) as Heq by (symmetry; exact Hrun).
  vm_compute in Heq. injection Heq as -> ->. split; vm_compute; reflexivity.
Defined.

(** * Further properties of the configuration and of the schema *)

Section ConnectionFacts.
Context {DB : Type} `{ProbeClient DB}.

(** X17.  [testConnection] never throws: it returns [true] when the client
    is available and the probe query reports no error, and [false] in every
    other case, also when [getSupabase] throws for want of credentials. *)
Theorem testConnection_never_throws :
  ∀ (env : Env) (db : DB),
    ∃ connected : bool,
      fst (Connection.testConnection env db) = Return connected
      ∧ (connected = true
         ↔ getSupabase env = Return tt ∧ error (snd (select_id_limit_1 db)) = None)
      ∧ (getSupabase env ≠ Return tt → snd (Connection.testConnection env db) = db).
Proof.
  intros env db. unfold Connection.testConnection, Run.try_catch, Run.bind, Run.lift,
    Run.ret.
  destruct (getSupabase env) as [[]|e]; simpl.
  - destruct (select_id_limit_1 db) as [db' r]. simpl.
    destruct (error r) as [e|]; simpl.
    + exists false. split; [reflexivity|]. split; [|done].
      split; [discriminate | by intros [_ ?]].
    + exists true. by split_and!.
  - exists false. split; [reflexivity|]. split; [|done].
    split; [discriminate | by intros [? _]].
Qed.

End ConnectionFacts.

Section DiagnosesAccepts.
Import Diagnoses.




Lemma decimal_5_4_exact (u : Z) :
  Z.abs u < 100000 → decimal_5_4 (u # 10000) = Some (u # 10000)%Q.
Proof.
  intros Hu. unfold decimal_5_4.
  assert (round_scale4 (u # 10000) = u) as ->.
  { unfold round_scale4. simpl. destruct (0 <=? u * 10000) eqn:Hsign.
    - symmetry. apply (Z.div_unique _ _ _ 10000); lia.
    - apply Z.leb_gt in Hsign. apply Z.opp_inj. rewrite Z.opp_involutive.
      symmetry. apply (Z.div_unique _ _ _ 10000); lia. }
  by rewrite (proj2 (Z.ltb_lt _ _) Hu).
Qed.

Lemma decimal_5_4_stored (q c : Q) : decimal_5_4 q = Some c → stored_decimal c.
Proof.
  unfold decimal_5_4. destruct (Z.abs (round_scale4 q) <? 100000) eqn:Hu; [|discriminate].
  intros [= <-]. apply Z.ltb_lt in Hu. by eexists.
Qed.

Lemma decimal_5_4_null_stored (v c : option Q) :
  decimal_5_4_null v = Some c → stored_score c.
Proof.
  destruct v as [q|]; simpl.
  - destruct (decimal_5_4 q) as [c'|] eqn:Hc; [|discriminate].
    intros [= <-] q' [= <-]. by eapply decimal_5_4_stored.
  - intros [= <-] q' ?. discriminate.
Qed.

Lemma new_row_stored (db : t) (ins : DiagnosisInsert.t) (row : DiagnosisRow.t) :
  new_row db ins = inr row → stored_numbers row.
Proof.
  unfold new_row.
  destruct (Sql.varchar 255 _) as [pid|]; simpl; [|discriminate].
  destruct (decimal_5_4 _) as [c|] eqn:Hc; simpl; [|discriminate].
  destruct (Sql.varchar_null 100 _) as [code|]; simpl; [|discriminate].
  destruct (decimal_5_4_null (DiagnosisInsert.olp_score ins)) as [olp|] eqn:Holp;
    simpl; [|discriminate].
  destruct (decimal_5_4_null (DiagnosisInsert.olk_score ins)) as [olk|] eqn:Holk;
    simpl; [|discriminate].
  destruct (decimal_5_4_null (DiagnosisInsert.ooml_score ins)) as [ooml|] eqn:Hooml;
    simpl; [|discriminate].
  destruct (decimal_5_4_null (DiagnosisInsert.opmd_score ins)) as [opmd|] eqn:Hopmd;
    simpl; [|discriminate].
  intros [= <-]. unfold stored_numbers. simpl.
  eauto 10 using decimal_5_4_stored, decimal_5_4_null_stored.
Qed.

Lemma set_decimal_stored (old : Q) (new : option Q) (c : Q) :
  stored_decimal old → set_decimal old new = Some c → stored_decimal c.
Proof.
  destruct new as [q|]; simpl.
  - intros _. apply decimal_5_4_stored.
  - by intros Hold [= <-].
Qed.

Lemma set_decimal_null_stored (old : option Q) (new : option (option Q)) (c : option Q) :
  stored_score old → set_decimal_null old new = Some c → stored_score c.
Proof.
  destruct new as [v|]; simpl.
  - intros _. apply decimal_5_4_null_stored.
  - by intros Hold [= <-].
Qed.

Lemma set_columns_stored (db : t) (u : DiagnosisUpdate.t) (r row : DiagnosisRow.t) :
  stored_numbers r → set_columns db u r = inr row → stored_numbers row.
Proof.
  intros (Hc0 & Holp0 & Holk0 & Hooml0 & Hopmd0). unfold set_columns.
  destruct (set_varchar 255 _ _) as [pid|]; simpl; [|discriminate].
  destruct (set_decimal _ _) as [c|] eqn:Hc; simpl; [|discriminate].
  destruct (set_varchar_null 100 _ _) as [code|]; simpl; [|discriminate].
  destruct (set_decimal_null (DiagnosisRow.olp_score r) _) as [olp|] eqn:Holp;
    simpl; [|discriminate].
  destruct (set_decimal_null (DiagnosisRow.olk_score r) _) as [olk|] eqn:Holk;
    simpl; [|discriminate].
  destruct (set_decimal_null (DiagnosisRow.ooml_score r) _) as [ooml|] eqn:Hooml;
    simpl; [|discriminate].
  destruct (set_decimal_null (DiagnosisRow.opmd_score r) _) as [opmd|] eqn:Hopmd;
    simpl; [|discriminate].
  intros [= <-]. unfold stored_numbers. simpl.
  eauto 10 using set_decimal_stored, set_decimal_null_stored.
Qed.

Lemma admit_row_inv (o : SqlError + DiagnosisRow.t) (row : DiagnosisRow.t) :
  admit_row o = inr row → o = inr row.
Proof.
  unfold admit_row. destruct o as [e|r]; [discriminate|]. simpl.
  destruct (checks r); [|discriminate]. by intros [= <-].
Qed.

Lemma update_rows_stored (db : t) (cond : DiagnosisRow.t → bool) (u : DiagnosisUpdate.t)
    (l l' : list DiagnosisRow.t) :
  Forall stored_numbers l → update_rows db cond u l = inr l' → Forall stored_numbers l'.
Proof.
  intros Hl. revert l'. induction Hl as [|r l Hr Hl IH]; intros l'; simpl.
  - intros [= <-]. constructor.
  - destruct (cond r).
    + destruct (admit_row (set_columns db u r)) as [e|r'] eqn:Hadmit; [discriminate|].
      destruct (update_rows db cond u l) as [e|rest]; [discriminate|].
      intros [= <-]. apply admit_row_inv in Hadmit.
      constructor; [by eapply set_columns_stored | by apply IH].
    + destruct (update_rows db cond u l) as [e|rest]; [discriminate|].
      intros [= <-]. constructor; [done | by apply IH].
Qed.

Lemma reachable_rows_stored (db : t) : reachable db → Forall stored_numbers (rows db).
Proof.
  induction 1 as [now n | now db Hdb IH | ins db db' Hdb IH Hins
                 | cond u db db' Hdb IH Hupd | cond db Hdb IH]; simpl.
  - constructor.
  - exact IH.
  - unfold insert in Hins.
    destruct (admit_row (new_row db ins)) as [e|row] eqn:Hadmit; [discriminate|].
    injection Hins as <-. simpl. apply Forall_app. split; [exact IH|].
    apply admit_row_inv in Hadmit. constructor; [by eapply new_row_stored | constructor].
  - unfold update in Hupd.
    destruct (update_rows db cond u (rows db)) as [e|l] eqn:Hrows; [discriminate|].
    injection Hupd as <-. simpl. by eapply update_rows_stored.
  - apply List.Forall_forall. intros r Hin. apply List.filter_In in Hin as [Hin _].
    revert r Hin. by apply List.Forall_forall.
Qed.

Lemma stored_decimal_exact (q : Q) : stored_decimal q → decimal_5_4 q = Some q.
Proof. intros (u & -> & Hu). by apply decimal_5_4_exact. Qed.

Lemma stored_score_exact (v : option Q) : stored_score v → decimal_5_4_null v = Some v.
Proof.
  destruct v as [q|]; simpl; [|done].
  intros Hq. by rewrite (stored_decimal_exact q (Hq q eq_refl)).
Qed.

(** X19.  The numbers of a stored row can be written back as they are: in
    every state of the table that writes can lead to, the column type
    takes the confidence and each score of each row to itself, so that
    reading a value and storing it again never changes it. *)
Theorem stored_numbers_written_back :
  ∀ (db : t) (r : DiagnosisRow.t),
    reachable db →
    r ∈ rows db →
    decimal_5_4 (DiagnosisRow.confidence r) = Some (DiagnosisRow.confidence r)
    ∧ decimal_5_4_null (DiagnosisRow.olp_score r) = Some (DiagnosisRow.olp_score r)
    ∧ decimal_5_4_null (DiagnosisRow.olk_score r) = Some (DiagnosisRow.olk_score r)
    ∧ decimal_5_4_null (DiagnosisRow.ooml_score r) = Some (DiagnosisRow.ooml_score r)
    ∧ decimal_5_4_null (DiagnosisRow.opmd_score r) = Some (DiagnosisRow.opmd_score r).
Proof.
  intros db r Hdb Hr.
  pose proof (reachable_rows_stored db Hdb) as Hall.
  rewrite Forall_forall in Hall.
  destruct (Hall r Hr) as (Hc & Holp & Holk & Hooml & Hopmd).
  auto 10 using stored_decimal_exact, stored_score_exact.
Qed.



End DiagnosesAccepts.

Lemma one_diagnosis_reachable : Diagnoses.reachable Sample.one_diagnosis.
Proof.
  apply Diagnoses.reach_tick.
  apply (Diagnoses.reach_insert Sample.sound_diagnosis Sample.no_diagnoses).
  - exact (Diagnoses.reach_empty _ _).
  - vm_compute. reflexivity.
Defined.


Lemma stored_numbers_written_back_witness :
  ∃ r : DiagnosisRow.t,
    r ∈ Diagnoses.rows Sample.one_diagnosis
    ∧ DiagnosisRow.confidence r = (8700 # 10000)%Q
    ∧ Diagnoses.decimal_5_4 (DiagnosisRow.confidence r) = Some (DiagnosisRow.confidence r).
Proof.
  assert (∃ r, Diagnoses.rows Sample.one_diagnosis = [r]
               ∧ DiagnosisRow.confidence r = (8700 # 10000)%Q) as (r & Hrows & Hc).
  { eexists. split; vm_compute; reflexivity. }
  assert (r ∈ Diagnoses.rows Sample.one_diagnosis) as Hr by (rewrite Hrows; left).
  exists r. split; [exact Hr|]. split; [exact Hc|].
  exact (proj1 (stored_numbers_written_back Sample.one_diagnosis r
                  one_diagnosis_reachable Hr)).
Defined.


(** * Further properties of the conversions and of the identifiers *)


Section ConversionRoundTrip.
Context `{DateApi}.


End ConversionRoundTrip.

Lemma patient_id_of_time_inj (now now' : Z) :
  "patient-" +:+ pretty now = "patient-" +:+ pretty now' → now = now'.
Proof.
  intros Heq. apply (inj (String.app "patient-")) in Heq.
  by apply (inj pretty) in Heq.
Qed.

Section DistinctMilliseconds.
Context `{DateApi} {DB : Type} `{PatientsClient DB}.
Import PatientService.

(** X22.  In memory mode two creations at different values of [Date.now()]
    never collide: the two patients have different identifiers, and after
    the second creation [getPatientById] returns each of them. *)
Theorem createPatient_memory_distinct_milliseconds :
  ∀ (env : Env) (now now' t1 t2 t3 t1' t2' t3' : Z) (req req' : CreatePatientRequest.t)
    (s : State DB),
    isNoDB env = true →
    now ≠ now' →
    ∃ (p1 p2 : Patient.t) (s1 s2 : State DB),
      createPatient env now t1 t2 t3 req s = (Return p1, s1)
      ∧ createPatient env now' t1' t2' t3' req' s1 = (Return p2, s2)
      ∧ Patient.id p1 ≠ Patient.id p2
      ∧ getPatientById env (Patient.id p1) s2 = (Return p1, s2)
      ∧ getPatientById env (Patient.id p2) s2 = (Return p2, s2).
Proof.
  intros env now now' t1 t2 t3 t1' t2' t3' req req' s Hmem Hne.
  assert ("patient-" +:+ pretty now' ≠ "patient-" +:+ pretty now) as Hids
    by (intros Heq; apply Hne; symmetry; by apply patient_id_of_time_inj).
  unfold createPatient, getPatientById. rewrite Hmem. lazy zeta.
  eexists _, _, _, _. split; [reflexivity|]. split; [reflexivity|]. simpl.
  split; [congruence|].
  rewrite JsMap_get_set_ne by exact Hids. by rewrite !JsMap_get_set_eq.
Qed.

End DistinctMilliseconds.


Lemma createPatient_memory_distinct_milliseconds_witness :
  isNoDB Sample.memory_env = true
  ∧ ∃ p1 p2 : Patient.t,
      Patient.id p1 ≠ Patient.id p2
      ∧ fst (PatientService.createPatient (H := Reference.dates) Sample.memory_env
               1700000000998 0 0 0 Sample.request_bob Sample.memory_state) = Return p1.
Proof.
  split; [reflexivity|].
  destruct (createPatient_memory_distinct_milliseconds (H := Reference.dates)
              Sample.memory_env 1700000000998 1700000000999 0 0 0 1 1 1
              Sample.request_bob Sample.request_bob Sample.memory_state eq_refl)
    as (p1 & p2 & s1 & s2 & Hfirst & _ & Hne & _); [discriminate|].
  exists p1, p2. split; [exact Hne|]. by rewrite Hfirst.
Defined.
